(** * Screener: result pipeline and saved-query store

    A shallow embedding of the client-side result pipeline of the stock
    screener (components/QueryResult.tsx) and of its saved-query store
    (components/Save.tsx, components/MyQuery.tsx), with the properties the
    specification states about them.

    Conventions.
    - A React component is modelled by a record holding its [useState]
      cells; an event handler is a function from that record to the next
      one, together with the effects it performs on the outside world
      (alerts, downloads, navigation, the [localStorage] key).
    - JavaScript arrays are immutable lists here.  [Array.prototype.filter],
      [slice], [map] and the spread [[...xs]] build fresh arrays in the
      source, so a handler can only change what its result record says it
      changes.
    - The primitives of the JavaScript host that the source calls but does
      not define (number printing and subtraction, [toLowerCase],
      [localeCompare], [trim]) are the fields of the class [Host]. *)

From Stdlib Require Import ZArith List String Ascii Bool Lia.
From Stdlib Require Import Permutation Sorted DecimalString.
From stdpp Require Import base list strings gmap.

Import ListNotations.
Local Open Scope Z_scope.

(** ** Strings *)

Module Str.

(** The double quote character, U+0022. *)
Definition dquote : ascii := "034"%char.
Definition comma : ascii := ","%char.
Definition newline : ascii := "010"%char.

Definition single (c : ascii) : string := String c EmptyString.

(** [s.includes(t)]: [t] occurs in [s] as a contiguous substring. *)
Fixpoint includes (s t : string) : bool :=
  match s with
  | EmptyString => String.prefix t EmptyString
  | String _ s' => String.prefix t s || includes s' t
  end.

(** [c] is one of the characters of [s]. *)
Fixpoint occurs (c : ascii) (s : string) : bool :=
  match s with
  | EmptyString => false
  | String d s' => Ascii.eqb c d || occurs c s'
  end.

(** [s.replace(/c/g, r)]: every occurrence of the character [c] replaced
    by the string [r]. *)
Fixpoint replaceAll (c : ascii) (r : string) (s : string) : string :=
  match s with
  | EmptyString => EmptyString
  | String d s' =>
      if Ascii.eqb d c then String.append r (replaceAll c r s')
      else String d (replaceAll c r s')
  end.

(** [xs.join(sep)] on an array of strings. *)
Definition join (sep : string) (xs : list string) : string :=
  String.concat sep xs.

(** Puts [c] in front of the first string of a list of pieces. *)
Definition consHead (c : ascii) (pieces : list string) : list string :=
  match pieces with
  | w :: ws => String c w :: ws
  | [] => [single c]
  end.

(** [s.split(sep)] for a separator of one character: the pieces between
    the separators, one piece more than there are separators. *)
Fixpoint splitOn (sep : ascii) (s : string) : list string :=
  match s with
  | EmptyString => [EmptyString]
  | String c rest =>
      if Ascii.eqb c sep then EmptyString :: splitOn sep rest
      else consHead c (splitOn sep rest)
  end.

End Str.

(** ** The JavaScript host *)

Class Host := {
  (** the values of [typeof v === 'number'] *)
  number : Type;
  (** [n.toString()] *)
  numberToString : number -> string;
  (** [a - b] *)
  numberSub : number -> number -> number;
  (** the sign of a number, all that [Array.prototype.sort] looks at in
      what its comparator returns: -1, 0 or 1 *)
  numberSign : number -> Z;
  (** [s.toLowerCase()] *)
  toLowerCase : string -> string;
  (** [a.localeCompare(b)] *)
  localeCompare : string -> string -> number;
  (** [s.trim()] *)
  trim : string -> string;

  (** The numbers of a row arrive as JSON, so they are finite: the
      differences [b - a] and [a - b] have opposite signs. *)
  numberSub_antisym : forall a b,
    numberSign (numberSub b a) = - numberSign (numberSub a b);
  (** A collation order read in the other direction has the other sign. *)
  localeCompare_antisym : forall a b,
    numberSign (localeCompare b a) = - numberSign (localeCompare a b);
  (** Case folding maps characters to characters: only the empty string
      folds to the empty string. *)
  toLowerCase_empty : forall s,
    toLowerCase s = EmptyString <-> s = EmptyString;
  (** A printed number is made of digits, a sign, a point and an exponent
      mark: it holds no comma and no double quote. *)
  numberToString_plain : forall n,
    Str.occurs Str.comma (numberToString n) = false /\
    Str.occurs Str.dquote (numberToString n) = false
}.

(** ** JavaScript values and array primitives *)

Module Js.
Section WithHost.
Context `{Host}.

(** The scalars a parsed dataset row can hold.  [VNull] is JSON [null];
    a key that is absent from the object reads as [undefined], which is
    [None] in [getField] below. *)
Inductive JsValue :=
  | VNumber (n : number)
  | VString (s : string)
  | VBoolean (b : bool)
  | VNull.

(** [interface StockData { [key: string]: any }]: the keys in insertion
    order with their values. *)
Definition StockData := list (string * JsValue).

(** [item[key]] *)
Fixpoint getField (key : string) (item : StockData) : option JsValue :=
  match item with
  | [] => None
  | (k, v) :: rest => if String.eqb k key then Some v else getField key rest
  end.

(** [Object.keys(item)] *)
Definition objectKeys (item : StockData) : list string := map fst item.

(** [v.toString()] for a value that is neither [null] nor [undefined]. *)
Definition toStringOf (v : JsValue) : option string :=
  match v with
  | VNumber n => Some (numberToString n)
  | VString s => Some s
  | VBoolean true => Some "true"%string
  | VBoolean false => Some "false"%string
  | VNull => None
  end.

(** [v?.toString()]: [None] stands for the [undefined] that optional
    chaining yields on [null] and [undefined]. *)
Definition optToString (v : option JsValue) : option string :=
  match v with
  | Some x => toStringOf x
  | None => None
  end.

(** [v?.toString() || '']: also the string a missing value counts as. *)
Definition toStringOrEmpty (v : option JsValue) : string :=
  match optToString v with
  | Some s => s
  | None => EmptyString
  end.

(** What [Array.prototype.join] prints for one element: [null] and
    [undefined] print as the empty string, anything else as its string
    form. *)
Definition joinElement (v : option JsValue) : string := toStringOrEmpty v.

(** [xs.slice(start, end)] with integer arguments: a negative index counts
    from the end, both indices are clamped to the array. *)
Definition slice {A} (xs : list A) (start end_ : Z) : list A :=
  let len := Z.of_nat (length xs) in
  let k := if start <? 0 then Z.max (len + start) 0 else Z.min start len in
  let final := if end_ <? 0 then Z.max (len + end_) 0 else Z.min end_ len in
  take (Z.to_nat (final - k)) (drop (Z.to_nat k) xs).

(** [Math.ceil(a / b)] for integers [a] and [b > 0]. *)
Definition mathCeilDiv (a b : Z) : Z := - ((- a) / b).

(** [Array.prototype.sort(compareFn)] is a stable sort that looks only at
    the sign of what [compareFn] returns.  Insertion from the right end is
    the reference: an element goes in front of the first later element it
    does not compare greater than. *)
Fixpoint insertSorted {A} (compareFn : A -> A -> number) (x : A) (xs : list A)
  : list A :=
  match xs with
  | [] => [x]
  | y :: ys =>
      if numberSign (compareFn x y) <=? 0 then x :: y :: ys
      else y :: insertSorted compareFn x ys
  end.

Definition arraySort {A} (compareFn : A -> A -> number) (xs : list A) : list A :=
  foldr (insertSorted compareFn) [] xs.

(** [xs.indexOf(x)] on an array of strings: the first position of [x], or
    -1 when [x] is not there. *)
Fixpoint indexOfFrom (x : string) (xs : list string) (i : Z) : Z :=
  match xs with
  | [] => -1
  | y :: ys => if String.eqb y x then i else indexOfFrom x ys (i + 1)
  end.

Definition indexOf (x : string) (xs : list string) : Z := indexOfFrom x xs 0.

End WithHost.
End Js.

(** ** The saved-query record (components/Save.tsx, components/MyQuery.tsx) *)

Module Saved.

Inductive Direction := asc | desc.

(** [{ key: string; direction: 'asc' | 'desc' }] *)
Record SortConfig := { key : string; direction : Direction }.

(** [interface SavedQuery]; [id] is the optional field [id?: string]. *)
Record SavedQuery := {
  id : option string;
  name : string;
  description : string;
  tags : list string;
  filters : gmap string string;
  sortConfig : option SortConfig;
  timestamp : string;
  resultCount : Z;
  totalCount : Z
}.

End Saved.

(** ** What a handler does to the outside world *)

Inductive Effect :=
  (** [alert(message)] *)
  | Alert (message : string)
  (** the click on the generated link: a file [filename] holding [content] *)
  | Download (filename content : string)
  (** [router.push('/save-query?data=...')] with the captured query *)
  | PushSaveQuery (queryData : Saved.SavedQuery)
  (** [router.push(path)] *)
  | Push (path : string).

(** ** components/QueryResult.tsx *)

Module QueryResult.
Section WithHost.
Context `{Host}.

Import Js.

(** The [useState] cells of the component. *)
Record State := {
  data : list StockData;
  filters : gmap string string;
  loading : bool;
  sortConfig : option Saved.SortConfig;
  currentPage : Z
}.

(** The first render: [useState([])], [useState({})], [useState(true)],
    [useState(null)], [useState(1)]. *)
Definition initialState : State :=
  {| data := []; filters := ∅; loading := true; sortConfig := None;
     currentPage := 1 |}.

Definition itemsPerPage : Z := 20.

(** [Object.keys(filters)]; [every] does not depend on their order. *)
Definition filterKeys (fs : gmap string string) : list string :=
  (map_to_list fs).*1.

(** The callback of [Object.keys(filters).every] for one record:
    [if (!filters[key]) return true;] then
    [item[key]?.toString().toLowerCase().includes(filters[key].toLowerCase())],
    where the [undefined] of a missing value is falsy. *)
Definition matchesKey (fs : gmap string string) (item : StockData)
  (key : string) : bool :=
  match fs !! key with
  | None => true
  | Some wanted =>
      if String.eqb wanted EmptyString then true
      else match optToString (getField key item) with
           | None => false
           | Some text => Str.includes (toLowerCase text) (toLowerCase wanted)
           end
  end.

Definition matchesAll (fs : gmap string string) (item : StockData) : bool :=
  forallb (matchesKey fs item) (filterKeys fs).

(** [applyFilters], lines 52-60. *)
Definition applyFilters (st : State) : list StockData :=
  List.filter (matchesAll (filters st)) (data st).

(** The comparator of [sortData], lines 65-81. *)
Definition compareRows (cfg : Saved.SortConfig) (a b : StockData) : number :=
  let aValue := getField (Saved.key cfg) a in
  let bValue := getField (Saved.key cfg) b in
  match aValue, bValue with
  | Some (VNumber x), Some (VNumber y) =>
      match Saved.direction cfg with
      | Saved.asc => numberSub x y
      | Saved.desc => numberSub y x
      end
  | _, _ =>
      let aStr := toStringOrEmpty aValue in
      let bStr := toStringOrEmpty bValue in
      match Saved.direction cfg with
      | Saved.asc => localeCompare aStr bStr
      | Saved.desc => localeCompare bStr aStr
      end
  end.

(** [sortData], lines 62-82. *)
Definition sortData (st : State) (rows : list StockData) : list StockData :=
  match sortConfig st with
  | None => rows
  | Some cfg => arraySort (compareRows cfg) rows
  end.

Definition isAsc (d : Saved.Direction) : bool :=
  match d with Saved.asc => true | Saved.desc => false end.

(** [handleSort], lines 84-90. *)
Definition handleSort (key : string) (st : State) : State :=
  let direction :=
    match sortConfig st with
    | Some cfg =>
        if String.eqb (Saved.key cfg) key && isAsc (Saved.direction cfg)
        then Saved.desc else Saved.asc
    | None => Saved.asc
    end in
  {| data := data st; filters := filters st; loading := loading st;
     sortConfig := Some {| Saved.key := key; Saved.direction := direction |};
     currentPage := currentPage st |}.

(** [handlePageChange], lines 200-202. *)
Definition handlePageChange (page : Z) (st : State) : State :=
  {| data := data st; filters := filters st; loading := loading st;
     sortConfig := sortConfig st; currentPage := page |}.

(** The effect of lines 28-38 when the URL parameters are [urlFilters]:
    [setFilters(urlFilters)], then [fetchData()] starts with
    [setLoading(true)]. *)
Definition onSearchParams (urlFilters : gmap string string) (st : State) : State :=
  {| data := data st; filters := urlFilters; loading := true;
     sortConfig := sortConfig st; currentPage := currentPage st |}.

(** [fetchData] once the response arrived: [setData(result)] and
    [setLoading(false)], lines 43-49. *)
Definition onFetched (result : list StockData) (st : State) : State :=
  {| data := result; filters := filters st; loading := false;
     sortConfig := sortConfig st; currentPage := currentPage st |}.

(** Lines 191-198. *)
Definition filteredAndSortedData (st : State) : list StockData :=
  sortData st (applyFilters st).

Definition totalPagesOf {A} (rows : list A) : Z :=
  mathCeilDiv (Z.of_nat (length rows)) itemsPerPage.

Definition startIndexOf (page : Z) : Z := (page - 1) * itemsPerPage.

Definition endIndexOf (page : Z) : Z := startIndexOf page + itemsPerPage.

Definition currentDataOf {A} (rows : list A) (page : Z) : list A :=
  slice rows (startIndexOf page) (endIndexOf page).

Definition totalPages (st : State) : Z := totalPagesOf (filteredAndSortedData st).

Definition currentData (st : State) : list StockData :=
  currentDataOf (filteredAndSortedData st) (currentPage st).

(** The page number on the [i]-th numbered button, lines 301-311. *)
Definition pageNumAt (total current i : Z) : Z :=
  if total <=? 5 then i + 1
  else if current <=? 3 then i + 1
  else if current >=? total - 2 then total - 4 + i
  else current - 2 + i.

(** The pages that the rendered pagination controls pass to
    [handlePageChange], lines 299-346: the numbered buttons, the last-page
    button after the ellipsis, and the next-page button. *)
Definition pageTargets (total current : Z) : list Z :=
  if 1 <? total then
    map (fun i => pageNumAt total current (Z.of_nat i))
        (seq 0 (Z.to_nat (Z.min 5 total)))
    ++ (if (5 <? total) && (current <? total - 2) then [total] else [])
    ++ (if current <? total then [current + 1] else [])
  else [].

(** One CSV cell, lines 138-145 followed by the [join(',')] of line 145,
    which prints the values the callback returned unchanged. *)
Definition csvCell (value : option JsValue) : string :=
  match value with
  | Some (VString s) =>
      if Str.includes s (Str.single Str.comma)
         || Str.includes s (Str.single Str.dquote)
      then String Str.dquote
             (Str.replaceAll Str.dquote
                (String Str.dquote (Str.single Str.dquote)) s
              ++ Str.single Str.dquote)
      else s
  | other => joinElement other
  end.

Definition csvRow (columns : list string) (row : StockData) : string :=
  Str.join (Str.single Str.comma) (map (fun col => csvCell (getField col row)) columns).

(** [csvContent], lines 133-147. *)
Definition csvContent (columns : list string) (rows : list StockData) : string :=
  Str.join (Str.single Str.newline)
    (Str.join (Str.single Str.comma) columns :: map (csvRow columns) rows).

(** [exportToCSV], lines 122-159.  [today] is
    [new Date().toISOString().split('T')[0]].  The handler calls no state
    setter. *)
Definition exportToCSV (today : string) (st : State) : State * list Effect :=
  let filteredData := sortData st (applyFilters st) in
  match filteredData with
  | [] => (st, [Alert "No data to export"])
  | first :: _ =>
      let columns := objectKeys first in
      (st, [Download ("stock-query-results-" ++ today ++ ".csv")
                     (csvContent columns filteredData)])
  end.

(** [saveQuery], lines 162-174.  [nowIso] is [new Date().toISOString()].
    The object literal has the five fields below and no others; it travels
    to the save page as JSON, where it is read at the type [SavedQuery]. *)
Definition captureQuery (nowIso : string) (st : State) : Saved.SavedQuery :=
  {| Saved.id := None;
     Saved.name := EmptyString;
     Saved.description := EmptyString;
     Saved.tags := [];
     Saved.filters := filters st;
     Saved.sortConfig := sortConfig st;
     Saved.timestamp := nowIso;
     Saved.resultCount := Z.of_nat (length (applyFilters st));
     Saved.totalCount := Z.of_nat (length (data st)) |}.

Definition saveQuery (nowIso : string) (st : State) : State * list Effect :=
  (st, [PushSaveQuery (captureQuery nowIso st)]).


(** The numbered buttons of lines 301-326, from left to right. *)
Definition pageNumbers (total current : Z) : list Z :=
  map (fun i => pageNumAt total current (Z.of_nat i))
      (seq 0 (Z.to_nat (Z.min 5 total))).

(** The condition of line 327 under which the ellipsis and the last-page
    button are rendered. *)
Definition lastPageShown (total current : Z) : bool :=
  (5 <? total) && (current <? total - 2).

(** Lines 30-33: [searchParams.forEach((value, key) => urlFilters[key] = value)],
    the URL parameters taken in their order. *)
Definition urlFiltersOf (searchParams : list (string * string))
  : gmap string string :=
  foldl (fun urlFilters kv => <[kv.1 := kv.2]> urlFilters) ∅ searchParams.


(** The test of line 113: [value && value.trim() !== '']. *)
Definition describes (kv : string * string) : bool :=
  negb (String.eqb kv.2 EmptyString)
  && negb (String.eqb (trim kv.2) EmptyString).

(** [generateSubtitle], lines 107-119.  [entries] is
    [Object.entries(filters)], which has as many elements as
    [Object.keys(filters)]. *)
Definition generateSubtitle (entries : list (string * string)) : string :=
  match entries with
  | [] => "All stocks"
  | _ =>
      let filterDescriptions :=
        map (fun kv => kv.1 ++ " = " ++ kv.2) (List.filter describes entries) in
      match filterDescriptions with
      | [] => "All stocks"
      | _ => Str.join " & " filterDescriptions
      end
  end%string.
End WithHost.
End QueryResult.

(** ** The same two stages on arrays that live in memory

    [applyFilters] and [sortData] above say which rows come out.  The
    source works on JavaScript arrays, which are shared and can be changed
    in place; this module follows the arrays themselves, to tell a copy
    from the array that was passed in. *)

Module InPlace.
Section WithHost.
Context `{Host}.

Import Js.

(** The arrays of rows alive during a render.  The address of an array is
    its position in this list. *)
Definition Arrays := list (list StockData).

(** A new array holding [rows], at the next free address. *)
Definition allocate (rows : list StockData) (h : Arrays) : nat * Arrays :=
  (length h, h ++ [rows]).

(** [applyFilters] with [data] at address [dataRef]:
    [Array.prototype.filter] reads its array and puts what it keeps in a
    new one.  [None] when there is no array at [dataRef]. *)
Definition applyFilters (st : QueryResult.State) (dataRef : nat) (h : Arrays)
  : option (nat * Arrays) :=
  match h !! dataRef with
  | Some rows =>
      Some (allocate (List.filter (QueryResult.matchesAll (QueryResult.filters st)) rows) h)
  | None => None
  end.

(** [sortData] with its argument at address [ref]:
    [if (!sortConfig) return data;] hands back the array it was given;
    otherwise the spread [[...data]] makes a new array with the same rows
    and [sort] reorders that new array in place and returns it. *)
Definition sortData (st : QueryResult.State) (ref : nat) (h : Arrays)
  : option (nat * Arrays) :=
  match QueryResult.sortConfig st with
  | None => Some (ref, h)
  | Some cfg =>
      match h !! ref with
      | Some rows =>
          let (copy, h1) := allocate rows h in
          Some (copy, alter (arraySort (QueryResult.compareRows cfg)) copy h1)
      | None => None
      end
  end.

End WithHost.
End InPlace.

(** ** The persisted collection *)

Module Storage.

(** What [localStorage.getItem('savedStockQueries')] can hold.  Every
    writer of the key writes [JSON.stringify] of an array of saved queries,
    which [JSON.parse] reads back unchanged; [Stored] keeps that array.
    [Absent] is the [null] of a key never written.  [Unreadable] is text
    on which [JSON.parse] throws. *)
Inductive Blob :=
  | Absent
  | Unreadable
  | Stored (queries : list Saved.SavedQuery).

(** [Date.now().toString()] for the clock reading [now], in milliseconds. *)
Definition dateNowString (now : Z) : string :=
  NilZero.string_of_int (Z.to_int now).

(** [loadSavedQueries] of MyQuery.tsx (lines 27-38) and Save.tsx (lines
    70-79): [setSavedQueries(JSON.parse(saved))] when the key holds text,
    nothing when it is absent, and nothing but a logged error when
    [JSON.parse] throws.  [current] is the state cell before the call. *)
Definition loadSavedQueries (ls : Blob) (current : list Saved.SavedQuery)
  : list Saved.SavedQuery :=
  match ls with
  | Stored queries => queries
  | Absent => current
  | Unreadable => current
  end.

(** What a component that has just mounted shows: the state cell starts as
    [useState([])] and [loadSavedQueries] runs once. *)
Definition listQueries (ls : Blob) : list Saved.SavedQuery := loadSavedQueries ls [].

(** [q.id !== id] *)
Definition idDiffers (id : string) (q : Saved.SavedQuery) : bool :=
  match Saved.id q with
  | Some i => negb (String.eqb i id)
  | None => true
  end.

(** [deleteQuery] of MyQuery.tsx (lines 40-46) and of Save.tsx (lines
    130-136), which are the same text.  [confirmed] is what [confirm(...)]
    returned, [savedQueries] the component's state cell. *)
Definition deleteQuery (confirmed : bool) (id : string)
  (savedQueries : list Saved.SavedQuery) (ls : Blob)
  : list Saved.SavedQuery * Blob :=
  if confirmed then
    let updatedQueries := List.filter (idDiffers id) savedQueries in
    (updatedQueries, Stored updatedQueries)
  else (savedQueries, ls).

End Storage.

(** ** components/Save.tsx *)

Module Save.
Section WithHost.
Context `{Host}.

Import Storage.

(** The [useState] cells that [saveQuery] reads or writes. *)
Record State := {
  queryData : option Saved.SavedQuery;
  name : string;
  description : string;
  selectedTags : list string;
  saving : bool;
  savedQueries : list Saved.SavedQuery
}.

Definition setSaving (b : bool) (st : State) : State :=
  {| queryData := queryData st; name := name st;
     description := description st; selectedTags := selectedTags st;
     saving := b; savedQueries := savedQueries st |}.

(** The object literal of lines 107-113: [id] comes first and the spread
    of [queryData] after it, so an [id] carried by [queryData] wins; the
    three fields after the spread always win. *)
Definition newQuery (now : Z) (st : State) (qd : Saved.SavedQuery)
  : Saved.SavedQuery :=
  {| Saved.id := match Saved.id qd with
                 | Some i => Some i
                 | None => Some (dateNowString now)
                 end;
     Saved.name := trim (name st);
     Saved.description := trim (description st);
     Saved.tags := selectedTags st;
     Saved.filters := Saved.filters qd;
     Saved.sortConfig := Saved.sortConfig qd;
     Saved.timestamp := Saved.timestamp qd;
     Saved.resultCount := Saved.resultCount qd;
     Saved.totalCount := Saved.totalCount qd |}.

(** [!name.trim()] *)
Definition nameMissing (st : State) : bool :=
  String.eqb (trim (name st)) EmptyString.

(** [saveQuery], lines 98-128.  [now] is what [Date.now()] returns.  The
    result is the component state, the storage key and the effects in the
    order they happen. *)
Definition saveQuery (now : Z) (st : State) (ls : Blob)
  : State * Blob * list Effect :=
  match queryData st with
  | None => (st, ls, [Alert "Please enter a name for your query"])
  | Some qd =>
      if nameMissing st then
        (st, ls, [Alert "Please enter a name for your query"])
      else
        match ls with
        | Unreadable =>
            (setSaving false st, ls,
             [Alert "Error saving query. Please try again."])
        | Absent =>
            (setSaving false st, Stored ([] ++ [newQuery now st qd]),
             [Alert "Query saved successfully!"; Push "/my-query"])
        | Stored existingQueries =>
            (setSaving false st,
             Stored (existingQueries ++ [newQuery now st qd]),
             [Alert "Query saved successfully!"; Push "/my-query"])
        end
  end.


(** [PREDEFINED_TAGS], lines 19-23. *)
Definition PREDEFINED_TAGS : list string :=
  ["a1"; "a2"; "a3"; "a4"; "a5"; "a6"; "a7"; "a8"; "a9"; "a10";
   "a11"; "a12"; "a13"; "a14"; "a15"; "a16"; "a17"; "a18"; "a19"; "a20";
   "a21"; "a22"; "a23"; "a24"; "a25"; "a26"; "a27"; "a28"; "a29"; "a30"]%string.

(** [TAG_COLORS], lines 26-32. *)
Definition TAG_COLORS : list string :=
  ["#fde4f8"; "#dbf3f8"; "#dde6fa"; "#d9f4e5"; "#fbeddc"]%string.

(** [handleTagToggle], lines 81-87, as the function it passes to
    [setSelectedTags]. *)
Definition handleTagToggle (tag : string) (prev : list string) : list string :=
  if existsb (String.eqb tag) prev
  then List.filter (fun t => negb (String.eqb t tag)) prev
  else prev ++ [tag].

(** [getTagColor], lines 89-91: [TAG_COLORS[index % TAG_COLORS.length]].
    The remainder has the sign of [index]; reading an array at a negative
    index gives [undefined], which is [None]. *)
Definition getTagColor (index : Z) : option string :=
  let i := Z.rem index (Z.of_nat (length TAG_COLORS)) in
  if i <? 0 then None else TAG_COLORS !! Z.to_nat i.

(** Line 150. *)
Definition displayedTags (showAllTags : bool) : list string :=
  if showAllTags then PREDEFINED_TAGS else Js.slice PREDEFINED_TAGS 0 4.

(** The colour of the chip of a selected tag, lines 208-209. *)
Definition chipColor (tag : string) : option string :=
  getTagColor (Js.indexOf tag PREDEFINED_TAGS).

(** The colour of the [index]-th button of the tag picker, line 235. *)
Definition pickerColor (index : nat) : option string :=
  getTagColor (Z.of_nat index).

(** The automatic name of lines 55-60.  [keys] is
    [Object.keys(decoded.filters)] and [today] is
    [new Date().toLocaleDateString()]. *)
Definition autoName (keys : list string) (decoded : Saved.SavedQuery)
  (today : string) : string :=
  let filterNames :=
    List.filter
      (fun key =>
         match Saved.filters decoded !! key with
         | Some value => negb (String.eqb value EmptyString)
         | None => false
         end)
      keys in
  match filterNames with
  | [] => "Stock Query " ++ today
  | _ => "Query with " ++ Str.join ", " filterNames
  end%string.
End WithHost.
End Save.

(** ** components/MyQuery.tsx *)

Module MyQuery.

Import Storage.

(** The [savedQueries] state cell of the component. *)
Definition State := list Saved.SavedQuery.

(** [useState<SavedQuery[]>([])] *)
Definition initialState : State := [].

(** The [useEffect] of lines 23-25, run once when the component mounts. *)
Definition onMount (ls : Blob) (st : State) : State := loadSavedQueries ls st.

(** The click on a delete button, lines 40-46 and 171. *)
Definition onDelete (confirmed : bool) (id : string) (st : State) (ls : Blob)
  : State * Blob :=
  deleteQuery confirmed id st ls.

(** [runQuery], lines 48-58, and [loadQuery] of Save.tsx, lines 138-148,
    which is the same text: the parameters appended to the
    [URLSearchParams], in order.  [keys] is [Object.keys(query.filters)]. *)
Definition runQuery (keys : list string) (query : Saved.SavedQuery)
  : list (string * string) :=
  flat_map
    (fun key =>
       match Saved.filters query !! key with
       | Some value => if String.eqb value EmptyString then [] else [(key, value)]
       | None => []
       end)
    keys.

(** [truncateText], lines 60-64. *)
Definition truncateText (text : string) (wordLimit : Z) : string :=
  let words := Str.splitOn " " text in
  if Z.of_nat (length words) <=? wordLimit then text
  else (Str.join " " (Js.slice words 0 wordLimit) ++ "...")%string.

End MyQuery.

(** ** components/SearchPage.tsx, the saved queries of the My Screens tab *)

Module SearchPage.
Section WithHost.
Context `{Host}.

Import Storage.

(** [new Date(timestamp).getTime()] *)
Variable getTime : string -> number.

(** The comparator of line 104. *)
Definition byRecency (a b : Saved.SavedQuery) : number :=
  numberSub (getTime (Saved.timestamp b)) (getTime (Saved.timestamp a)).

(** [loadSavedQueries], lines 96-115: what [setSavedQueries] receives.
    The array that is sorted in place is the one [JSON.parse] has just
    built. *)
Definition loadSavedQueries (ls : Blob) : list Saved.SavedQuery :=
  match ls with
  | Stored queries => Js.slice (Js.arraySort byRecency queries) 0 9
  | Absent => []
  | Unreadable => []
  end.

(** [deleteQuery], lines 259-267: the state cell after the reload that
    ends the handler, and the storage key. *)
Definition deleteQuery (confirmed : bool) (id : string)
  (savedQueries : list Saved.SavedQuery) (ls : Blob)
  : list Saved.SavedQuery * Blob :=
  if confirmed then
    let updatedQueries := List.filter (idDiffers id) savedQueries in
    (loadSavedQueries (Stored updatedQueries), Stored updatedQueries)
  else (savedQueries, ls).

End WithHost.
End SearchPage.

(** ** A host over 8-bit strings and integers

    One concrete [Host], used to run the model on examples: numbers are
    the integers printed in decimal, the way JavaScript prints an integer
    below 10^21; [toLowerCase] folds the letters A-Z; [localeCompare] is
    the order of the character codes; [trim] strips the ASCII white space
    characters. *)

Module Ascii8.

Definition lowerChar (c : ascii) : ascii :=
  let n := nat_of_ascii c in
  if (65 <=? n)%nat && (n <=? 90)%nat then ascii_of_nat (n + 32) else c.

Fixpoint lower (s : string) : string :=
  match s with
  | EmptyString => EmptyString
  | String c s' => String (lowerChar c) (lower s')
  end.

Definition isSpace (c : ascii) : bool :=
  let n := nat_of_ascii c in
  ((9 <=? n)%nat && (n <=? 13)%nat) || (n =? 32)%nat.

Fixpoint trimStart (s : string) : string :=
  match s with
  | EmptyString => EmptyString
  | String c s' => if isSpace c then trimStart s' else s
  end.

Fixpoint trimEnd (s : string) : string :=
  match s with
  | EmptyString => EmptyString
  | String c s' =>
      match trimEnd s' with
      | EmptyString => if isSpace c then EmptyString else String c EmptyString
      | rest => String c rest
      end
  end.

Definition trimBoth (s : string) : string := trimEnd (trimStart s).

Definition printZ (n : Z) : string := NilZero.string_of_int (Z.to_int n).

Definition signOf (c : comparison) : Z :=
  match c with Lt => -1 | Eq => 0 | Gt => 1 end.

Definition compareCodes (a b : string) : Z := signOf (String.compare a b).

End Ascii8.

(** ** The vocabulary of the stated properties *)

Module Spec.

(** Reading one CSV cell back, by the usual rule: a cell that opens with a
    double quote runs to its closing quote, and a doubled quote inside it
    stands for one quote; any other cell is taken as it is. *)
Fixpoint unquoteBody (s : string) : string :=
  match s with
  | EmptyString => EmptyString
  | String c rest =>
      if Ascii.eqb c Str.dquote then
        match rest with
        | EmptyString => EmptyString
        | String d rest' =>
            if Ascii.eqb d Str.dquote then String Str.dquote (unquoteBody rest')
            else EmptyString
        end
      else String c (unquoteBody rest)
  end.

Definition csvUnescape (cell : string) : string :=
  match cell with
  | EmptyString => EmptyString
  | String c rest => if Ascii.eqb c Str.dquote then unquoteBody rest else cell
  end.

(** Cutting one CSV line into its cells, by the usual rule: a comma ends
    a cell unless it stands between double quotes.  [inQuotes] tells
    whether an opening quote is waiting for its closing quote. *)
Fixpoint splitCells (inQuotes : bool) (line : string) : list string :=
  match line with
  | EmptyString => [EmptyString]
  | String c rest =>
      if Ascii.eqb c Str.dquote then
        Str.consHead c (splitCells (negb inQuotes) rest)
      else if Ascii.eqb c Str.comma && negb inQuotes then
        EmptyString :: splitCells false rest
      else Str.consHead c (splitCells inQuotes rest)
  end.

(** Reading one CSV line back: its cells, each unescaped. *)
Definition parseRow (line : string) : list string :=
  map csvUnescape (splitCells false line).

(** Reading an exported file back: its lines, each read as a CSV line. *)
Definition parseCsv (content : string) : list (list string) :=
  map parseRow (Str.splitOn Str.newline content).

(** Puts [x] in front of the first piece of a list of pieces. *)
Definition prepend (x : string) (pieces : list string) : list string :=
  match pieces with
  | w :: ws => (x ++ w)%string :: ws
  | [] => [x]
  end.

(** A text that can stand in a CSV line as it is. *)
Definition plainText (s : string) : Prop :=
  Str.occurs Str.comma s = false /\ Str.occurs Str.dquote s = false.

(** The other sort direction. *)
Definition otherDirection (d : Saved.Direction) : Saved.Direction :=
  match d with Saved.asc => Saved.desc | Saved.desc => Saved.asc end.

(** A filter entry that constrains the result: its value is not empty. *)
Definition constrains (kv : string * string) : Prop := kv.2 <> EmptyString.

#[global] Instance constrains_dec kv : Decision (constrains kv).
Proof. unfold constrains. apply _. Defined.

(** A saved query whose counts are ordered the way a capture orders them. *)
Definition countsOrdered (q : Saved.SavedQuery) : Prop :=
  0 <= Saved.resultCount q <= Saved.totalCount q.

Section WithHost.
Context `{Host}.

Import Js.

(** The string a record shows for field [f]: its value's string form, and
    the empty string when the value is missing. *)
Definition fieldText (f : string) (item : StockData) : string :=
  toStringOrEmpty (getField f item).

(** The filter's contract for one record: every entry of the filter set
    with a non-empty value is found, case-folded, inside the case-folded
    text of the record's field. *)
Definition survives (fs : gmap string string) (item : StockData) : Prop :=
  forall f v, fs !! f = Some v -> v <> EmptyString ->
    Str.includes (toLowerCase (fieldText f item)) (toLowerCase v) = true.

(** [a] may stand in front of [b] in the order of [cfg]. *)
Definition inOrder (cfg : Saved.SortConfig) (a b : StockData) : Prop :=
  numberSign (QueryResult.compareRows cfg a b) <= 0.

(** Both values are of [typeof] ['number']. *)
Definition bothNumbers (x y : option JsValue) : Prop :=
  exists n m, x = Some (VNumber n) /\ y = Some (VNumber m).

(** The states the result page can be in: it starts in [initialState];
    the URL parameters may change, a fetch may deliver rows, a column
    header may be clicked, and one of the rendered page controls may be
    clicked. *)
Inductive Reachable : QueryResult.State -> Prop :=
  | reach_initial : Reachable QueryResult.initialState
  | reach_searchParams st searchParams :
      Reachable st ->
      Reachable (QueryResult.onSearchParams
                   (QueryResult.urlFiltersOf searchParams) st)
  | reach_fetched st result :
      Reachable st -> Reachable (QueryResult.onFetched result st)
  | reach_sort st key :
      Reachable st -> Reachable (QueryResult.handleSort key st)
  | reach_page st page :
      Reachable st ->
      In page (QueryResult.pageTargets (QueryResult.totalPages st)
                 (QueryResult.currentPage st)) ->
      Reachable (QueryResult.handlePageChange page st).

(** The store as its users see it: the persisted key and the copy that a
    mounted MyQuery page holds. *)
Record World := { blob : Storage.Blob; shown : MyQuery.State }.

(** The actions of a session on the store. *)
Inductive Action :=
  (** the MyQuery page mounts and loads the key *)
  | Mount
  (** the result page captures the view [view] at time [nowIso], the save
      page receives it and saves it at clock reading [now] under the
      entered name, description and tags *)
  | Create (nowIso : string) (view : QueryResult.State) (now : Z)
      (name description : string) (tags : list string)
  (** a delete button of the MyQuery page is clicked *)
  | Delete (confirmed : bool) (id : string).

Definition saveForm (qd : Saved.SavedQuery) (name description : string)
  (tags : list string) : Save.State :=
  {| Save.queryData := Some qd; Save.name := name;
     Save.description := description; Save.selectedTags := tags;
     Save.saving := false; Save.savedQueries := [] |}.

Definition act (w : World) (a : Action) : World :=
  match a with
  | Mount => {| blob := blob w; shown := MyQuery.onMount (blob w) (shown w) |}
  | Create nowIso view now name description tags =>
      let form := saveForm (QueryResult.captureQuery nowIso view)
                    name description tags in
      {| blob := (Save.saveQuery now form (blob w)).1.2; shown := shown w |}
  | Delete confirmed id =>
      let r := MyQuery.onDelete confirmed id (shown w) (blob w) in
      {| blob := r.2; shown := r.1 |}
  end.

Definition session (w : World) (actions : list Action) : World :=
  fold_left act actions w.

(** Every saved query a world holds, persisted or shown. *)
Definition entries (w : World) : list Saved.SavedQuery :=
  Storage.listQueries (blob w) ++ shown w.

End WithHost.
End Spec.

(** ** The concrete host satisfies the laws *)

Module Ascii8Facts.

Import Ascii8.

Lemma lower_empty s : lower s = EmptyString <-> s = EmptyString.
Proof. destruct s; simpl; split; congruence. Qed.

Lemma signOf_opp c : signOf (CompOpp c) = - signOf c.
Proof. destruct c; reflexivity. Qed.

Lemma compareCodes_antisym a b : compareCodes b a = - compareCodes a b.
Proof.
  unfold compareCodes. rewrite (String.compare_antisym a b).
  rewrite signOf_opp. lia.
Qed.

Lemma sub_sgn_antisym (a b : Z) : Z.sgn (b - a) = - Z.sgn (a - b).
Proof. rewrite <- Z.sgn_opp. f_equal. lia. Qed.

Lemma low_char_neq (c d : ascii) :
  (nat_of_ascii c < 45)%nat -> (45 <=? nat_of_ascii d)%nat = true ->
  Ascii.eqb c d = false.
Proof.
  intros Hc Hd. apply Nat.leb_le in Hd.
  destruct (Ascii.eqb_spec c d) as [->|_]; [lia | reflexivity].
Qed.

Lemma digits_plain (c : ascii) (u : Decimal.uint) :
  (nat_of_ascii c < 45)%nat ->
  Str.occurs c (NilEmpty.string_of_uint u) = false.
Proof.
  intros Hc. induction u; simpl; [reflexivity|..]; rewrite IHu;
    rewrite (low_char_neq c _ Hc) by reflexivity; reflexivity.
Qed.

Lemma printZ_plain (c : ascii) (n : Z) :
  (nat_of_ascii c < 45)%nat -> Str.occurs c (printZ n) = false.
Proof.
  intros Hc. unfold printZ, NilZero.string_of_int, NilZero.string_of_uint.
  destruct (Z.to_int n) as [u|u].
  - destruct u; try apply (digits_plain c _ Hc).
    simpl. rewrite (low_char_neq c _ Hc) by reflexivity. reflexivity.
  - simpl. rewrite (low_char_neq c "-" Hc) by reflexivity.
    destruct u; try apply (digits_plain c _ Hc).
    simpl. rewrite (low_char_neq c _ Hc) by reflexivity. reflexivity.
Qed.

End Ascii8Facts.

(** The host used in the examples below. *)
Definition ascii8 : Host :=
  {| number := Z;
     numberToString := Ascii8.printZ;
     numberSub := Z.sub;
     numberSign := Z.sgn;
     toLowerCase := Ascii8.lower;
     localeCompare := Ascii8.compareCodes;
     trim := Ascii8.trimBoth;
     numberSub_antisym := Ascii8Facts.sub_sgn_antisym;
     localeCompare_antisym := fun a b =>
       eq_trans (f_equal Z.sgn (Ascii8Facts.compareCodes_antisym a b))
                (Z.sgn_opp _);
     toLowerCase_empty := Ascii8Facts.lower_empty;
     numberToString_plain := fun n =>
       conj (Ascii8Facts.printZ_plain Str.comma n ltac:(apply Nat.ltb_lt; reflexivity))
            (Ascii8Facts.printZ_plain Str.dquote n ltac:(apply Nat.ltb_lt; reflexivity)) |}.

(** ** Example data *)

Module Examples.

Import Js.

#[local] Existing Instance ascii8.

Definition row (n : Z) (name : string) (pe : option Z) : StockData :=
  [("S.No"%string, VNumber n); ("Name"%string, VString name)]
  ++ match pe with
     | Some x => [("P/E"%string, VNumber x)]
     | None => []
     end.

Definition acme : StockData := row 1 "Acme" (Some 12).
Definition bolt : StockData := row 2 "Bolt" (Some 7).
Definition cara : StockData := row 3 "Cara, Inc" (Some 112).
Definition dune : StockData := row 4 "Dune" None.

(** Four loaded rows, the filter [P/E = 12], no sort, page 1. *)
Definition view : QueryResult.State :=
  {| QueryResult.data := [acme; bolt; cara; dune];
     QueryResult.filters := {[ "P/E"%string := "12"%string ]};
     QueryResult.loading := false;
     QueryResult.sortConfig := None;
     QueryResult.currentPage := 1 |}.

(** Twenty-one loaded rows named row0 .. row20, no filter. *)
Definition manyRows : list StockData :=
  map (fun i => row (Z.of_nat i) ("row" ++ Ascii8.printZ (Z.of_nat i)) None)
      (seq 0 21).

Definition wide : QueryResult.State :=
  QueryResult.onFetched manyRows QueryResult.initialState.

(** A query saved at clock reading 1700000000000. *)
Definition older : Saved.SavedQuery :=
  {| Saved.id := Some "1700000000000"%string;
     Saved.name := "first";
     Saved.description := EmptyString;
     Saved.tags := [];
     Saved.filters := ∅;
     Saved.sortConfig := None;
     Saved.timestamp := "2023-11-14T22:13:20.000Z";
     Saved.resultCount := 2;
     Saved.totalCount := 4 |}.

(** The save page holding a capture of [view], with a name entered. *)
Definition captured : Saved.SavedQuery :=
  QueryResult.captureQuery "2023-11-14T22:13:20.000Z" view.

Definition form : Save.State :=
  Spec.saveForm captured " second " EmptyString ["a1"%string].

(** The same page with only blanks entered as the name. *)
Definition blankForm : Save.State :=
  Spec.saveForm captured "   " EmptyString [].

(** A session on a store that holds [older]: the MyQuery page mounts, a
    save page stores a second query half a second later, and then a delete
    button of the MyQuery page is confirmed for an id that no entry has. *)
Definition start : Spec.World :=
  {| Spec.blob := Storage.Stored [older]; Spec.shown := MyQuery.initialState |}.

Definition secondSave : Spec.Action :=
  Spec.Create "2023-11-14T22:13:20.500Z" view 1700000000500
    "second" EmptyString [].

Definition second : Saved.SavedQuery :=
  Save.newQuery 1700000000500
    (Spec.saveForm (QueryResult.captureQuery "2023-11-14T22:13:20.500Z" view)
       "second" EmptyString [])
    (QueryResult.captureQuery "2023-11-14T22:13:20.500Z" view).

End Examples.

(** * Properties *)

(** ** Strings *)

Module StrFacts.

Import Str.

Lemma app_nil_l (s : string) : (EmptyString ++ s)%string = s.
Proof. reflexivity. Qed.

Lemma app_cons (c : ascii) (s t : string) :
  (String c s ++ t)%string = String c (s ++ t).
Proof. reflexivity. Qed.

Lemma prefix_nil_r t : String.prefix t EmptyString = true <-> t = EmptyString.
Proof. destruct t; simpl; split; congruence. Qed.

Lemma prefix_split t s :
  String.prefix t s = true <-> exists b, s = (t ++ b)%string.
Proof.
  revert s. induction t as [|c t IH]; intros s.
  - destruct s; simpl; split; eauto.
  - destruct s as [|d s]; simpl.
    + split; [discriminate | intros [b Hb]; discriminate].
    + destruct (ascii_dec c d) as [->|Hne].
      * rewrite IH. split; intros [b Hb]; exists b;
          rewrite app_cons in *; congruence.
      * split; [discriminate | intros [b Hb]; rewrite app_cons in Hb; congruence].
Qed.

(** [includes] finds exactly the contiguous substrings. *)
Lemma includes_split s t :
  includes s t = true <-> exists a b, s = (a ++ t ++ b)%string.
Proof.
  induction s as [|c s IH]; cbn [includes].
  - rewrite prefix_nil_r. split.
    + intros ->. exists EmptyString, EmptyString. reflexivity.
    + intros (a & b & Hab). destruct a; [destruct t|]; [reflexivity| |];
        rewrite ?app_nil_l, ?app_cons in Hab; discriminate.
  - rewrite orb_true_iff, IH, prefix_split. split.
    + intros [[b Hb] | (a & b & Hab)].
      * exists EmptyString, b. exact Hb.
      * exists (String c a), b. rewrite app_cons. congruence.
    + intros (a & b & Hab). destruct a as [|d a].
      * left. eauto.
      * right. exists a, b. rewrite app_cons in Hab. congruence.
Qed.

Lemma includes_empty_l t : includes EmptyString t = true <-> t = EmptyString.
Proof. cbn [includes]. apply prefix_nil_r. Qed.

Lemma includes_single s c : includes s (single c) = occurs c s.
Proof.
  induction s as [|d s IH]; simpl; [reflexivity|].
  rewrite IH. f_equal.
  destruct (ascii_dec c d) as [->|Hne].
  - rewrite Ascii.eqb_refl. destruct s; reflexivity.
  - destruct (Ascii.eqb_spec c d); [contradiction | reflexivity].
Qed.

Lemma occurs_append c s t : occurs c (s ++ t) = occurs c s || occurs c t.
Proof.
  induction s as [|d s IH]; [reflexivity|].
  rewrite app_cons. simpl. rewrite IH, orb_assoc. reflexivity.
Qed.

(** Undoing the doubling of quotes up to the closing quote. *)
Lemma unquoteBody_replaceAll s :
  Spec.unquoteBody
    (replaceAll dquote (String dquote (single dquote)) s ++ single dquote) = s.
Proof.
  induction s as [|c s IH]; [reflexivity|].
  simpl. destruct (Ascii.eqb_spec c dquote) as [->|Hne].
  - unfold single at 1. rewrite !app_cons, app_nil_l. simpl. rewrite IH. reflexivity.
  - rewrite app_cons. simpl. destruct (Ascii.eqb_spec c dquote); [contradiction|].
    rewrite IH. reflexivity.
Qed.

Lemma csvUnescape_plain s : occurs dquote s = false -> Spec.csvUnescape s = s.
Proof.
  destruct s as [|c s]; simpl; [reflexivity|].
  destruct (Ascii.eqb_spec c dquote) as [->|Hne]; [|reflexivity].
  intros Hd. simpl in Hd. rewrite ?Ascii.eqb_refl in Hd. discriminate.
Qed.

End StrFacts.

(** ** The filter evaluator *)

Section FilterFacts.
Context `{Host}.

Import Js QueryResult Spec.

Lemma toLowerCase_nil : toLowerCase EmptyString = EmptyString.
Proof. apply toLowerCase_empty. reflexivity. Qed.

Lemma filterKeys_lookup (fs : gmap string string) (key : string) :
  In key (filterKeys fs) <-> exists v, fs !! key = Some v.
Proof.
  unfold filterKeys. rewrite <- list_elem_of_In, list_elem_of_fmap. split.
  - intros ([k v] & -> & Hin). apply elem_of_map_to_list in Hin. eauto.
  - intros [v Hv]. exists (key, v). split; [reflexivity|].
    apply elem_of_map_to_list. exact Hv.
Qed.


Lemma matchesKey_spec fs item key :
  matchesKey fs item key = true <->
  (forall v, fs !! key = Some v -> v <> EmptyString ->
     Str.includes (toLowerCase (fieldText key item)) (toLowerCase v) = true).
Proof.
  unfold matchesKey, fieldText, toStringOrEmpty.
  destruct (fs !! key) as [w|] eqn:Hw.
  - destruct (String.eqb_spec w EmptyString) as [->|Hne].
    + split; [|reflexivity]. intros _ v [= <-] Hv. contradiction.
    + destruct (optToString (getField key item)) as [text|].
      * split; [intros Hi v [= <-] _; exact Hi | intros Hi; apply Hi; auto].
      * split; [discriminate|]. intros Hi.
        specialize (Hi w eq_refl Hne).
        rewrite toLowerCase_nil in Hi.
        apply (proj1 (StrFacts.includes_empty_l _)) in Hi.
        apply (proj1 (toLowerCase_empty _)) in Hi. contradiction.
  - split; [intros _ v Hv; discriminate | reflexivity].
Qed.

Lemma matchesAll_spec fs item : matchesAll fs item = true <-> survives fs item.
Proof.
  unfold matchesAll, survives. rewrite forallb_forall. split.
  - intros Hall f v Hv Hne.
    assert (Hk : In f (filterKeys fs)) by (apply filterKeys_lookup; eauto).
    apply Hall in Hk. apply matchesKey_spec with (v := v) in Hk; assumption.
  - intros Hs key _. apply matchesKey_spec. intros v. apply Hs.
Qed.

Lemma filter_sublist {A} (p : A -> bool) (xs : list A) :
  List.filter p xs `sublist_of` xs.
Proof.
  induction xs as [|x xs IH]; simpl; [constructor|].
  destruct (p x); constructor; exact IH.
Qed.

Lemma filter_length_le {A} (p : A -> bool) (xs : list A) :
  (length (List.filter p xs) <= length xs)%nat.
Proof. apply sublist_length, filter_sublist. Qed.

End FilterFacts.

(** ** The sort engine *)

Section SortFacts.
Context `{Host}.

Import Js QueryResult Spec.

Lemma insertSorted_perm {A} (cmp : A -> A -> number) x xs :
  Permutation (insertSorted cmp x xs) (x :: xs).
Proof.
  induction xs as [|y ys IH]; simpl; [reflexivity|].
  destruct (numberSign (cmp x y) <=? 0); [reflexivity|].
  rewrite IH. apply perm_swap.
Qed.

Lemma arraySort_perm {A} (cmp : A -> A -> number) xs :
  Permutation (arraySort cmp xs) xs.
Proof.
  induction xs as [|x xs IH]; simpl; [reflexivity|].
  rewrite insertSorted_perm. constructor. exact IH.
Qed.

Lemma arraySort_length {A} (cmp : A -> A -> number) (xs : list A) :
  length (arraySort cmp xs) = length xs.
Proof. apply Permutation_length, arraySort_perm. Qed.

Section Ordered.
Variable A : Type.
Variable cmp : A -> A -> number.
Hypothesis cmp_antisym :
  forall a b, numberSign (cmp b a) = - numberSign (cmp a b).

Let before (a b : A) : Prop := numberSign (cmp a b) <= 0.

Lemma insertSorted_HdRel y x ys :
  before y x -> HdRel before y ys -> HdRel before y (insertSorted cmp x ys).
Proof.
  intros Hyx Hhd. destruct ys as [|z zs]; simpl; [constructor; exact Hyx|].
  destruct (numberSign (cmp x z) <=? 0); constructor;
    [exact Hyx | inversion Hhd; assumption].
Qed.

Lemma insertSorted_Sorted x xs :
  Sorted before xs -> Sorted before (insertSorted cmp x xs).
Proof.
  induction 1 as [|y ys Hs IH Hhd]; simpl; [repeat constructor|].
  destruct (numberSign (cmp x y) <=? 0) eqn:Hxy.
  - constructor; [constructor; assumption|].
    constructor. apply Z.leb_le in Hxy. exact Hxy.
  - constructor; [exact IH|].
    apply insertSorted_HdRel; [|exact Hhd].
    apply Z.leb_gt in Hxy. unfold before. rewrite cmp_antisym. lia.
Qed.

Lemma arraySort_Sorted xs : Sorted before (arraySort cmp xs).
Proof.
  induction xs as [|x xs IH]; simpl; [constructor|].
  apply insertSorted_Sorted, IH.
Qed.

End Ordered.

(** Swapping the two rows flips the sign of what the comparator returns. *)
Lemma compareRows_antisym cfg a b :
  numberSign (compareRows cfg b a) = - numberSign (compareRows cfg a b).
Proof.
  unfold compareRows.
  destruct (getField (Saved.key cfg) a) as [[x| | |]|],
           (getField (Saved.key cfg) b) as [[y| | |]|],
           (Saved.direction cfg);
    first [apply numberSub_antisym | apply localeCompare_antisym].
Qed.

(** The descending comparator is the ascending one with its rows swapped. *)
Lemma compareRows_desc key a b :
  compareRows {| Saved.key := key; Saved.direction := Saved.desc |} a b =
  compareRows {| Saved.key := key; Saved.direction := Saved.asc |} b a.
Proof.
  unfold compareRows. simpl.
  destruct (getField key a) as [[x| | |]|], (getField key b) as [[y| | |]|];
    reflexivity.
Qed.

Lemma sortData_perm st rows : Permutation (sortData st rows) rows.
Proof.
  unfold sortData. destruct (sortConfig st); [apply arraySort_perm | reflexivity].
Qed.

Lemma sortData_length st rows : length (sortData st rows) = length rows.
Proof. apply Permutation_length, sortData_perm. Qed.

End SortFacts.

(** ** Arrays are copied, not changed *)

Section InPlaceFacts.
Context `{Host}.

Import Js.


(** Sorting leaves every array as it was.  Without a sort configuration
    its result is the array it was given; with one, its result is a new
    array. *)
Lemma inPlace_sortData (st : QueryResult.State) (ref : nat)
  (h : InPlace.Arrays) (rows : list StockData) :
  h !! ref = Some rows ->
  exists out h',
    InPlace.sortData st ref h = Some (out, h')
    /\ h' !! out = Some (QueryResult.sortData st rows)
    /\ (forall a xs, h !! a = Some xs -> h' !! a = Some xs)
    /\ (QueryResult.sortConfig st = None -> out = ref /\ h' = h)
    /\ (QueryResult.sortConfig st <> None -> out = length h).
Proof.
  intros Hr. unfold InPlace.sortData, QueryResult.sortData, InPlace.allocate.
  unfold InPlace.Arrays in *.
  destruct (QueryResult.sortConfig st) as [cfg|].
  - rewrite Hr. cbv beta iota. eexists _, _. split; [reflexivity|].
    split; [|split; [|split]].
    + rewrite list_lookup_alter_eq.
      rewrite (list_lookup_middle h [] rows (length h) eq_refl). reflexivity.
    + intros a xs Ha. apply lookup_lt_Some in Ha as Hlt.
      rewrite list_lookup_alter_ne by lia.
      apply lookup_app_l_Some. exact Ha.
    + discriminate.
    + reflexivity.
  - exists ref, h. split; [reflexivity|]. split; [exact Hr|].
    split; [auto|]. split; [auto | congruence].
Qed.

End InPlaceFacts.

(** ** The paginator *)

Section PageFacts.

Import Js QueryResult.

Lemma mathCeilDiv_bounds (n d : Z) :
  0 < d -> d * (mathCeilDiv n d - 1) < n <= d * mathCeilDiv n d.
Proof.
  intros Hd. unfold mathCeilDiv.
  pose proof (Z.div_mod (- n) d ltac:(lia)) as Heq.
  pose proof (Z.mod_pos_bound (- n) d Hd) as Hmod.
  lia.
Qed.

Lemma totalPagesOf_bounds {A} (rows : list A) :
  20 * (totalPagesOf rows - 1) < Z.of_nat (length rows) <= 20 * totalPagesOf rows.
Proof. apply (mathCeilDiv_bounds _ 20). lia. Qed.

Lemma totalPagesOf_nonneg {A} (rows : list A) : 0 <= totalPagesOf rows.
Proof. pose proof (totalPagesOf_bounds rows). lia. Qed.

(** From page 1 on, the slice is the window of twenty rows that starts
    after the pages before it. *)
Lemma currentDataOf_window {A} (rows : list A) (page : Z) :
  1 <= page ->
  currentDataOf rows page = take 20 (drop (20 * Z.to_nat (page - 1)) rows).
Proof.
  intros Hp. unfold currentDataOf, slice, endIndexOf, startIndexOf, itemsPerPage.
  set (len := Z.of_nat (length rows)).
  set (start := (page - 1) * 20).
  assert (Hs : 0 <= start) by (unfold start; lia).
  assert (Hn : (20 * Z.to_nat (page - 1))%nat = Z.to_nat start)
    by (unfold start; lia).
  rewrite Hn.
  destruct (start <? 0) eqn:E1; [apply Z.ltb_lt in E1; lia|].
  destruct (start + 20 <? 0) eqn:E2; [apply Z.ltb_lt in E2; lia|].
  destruct (Z.le_gt_cases len start) as [Hge|Hlt].
  - rewrite !drop_ge by (unfold len in *; lia).
    rewrite !take_nil. reflexivity.
  - replace (Z.min start len) with start by lia.
    destruct (Z.le_gt_cases (start + 20) len) as [Hfull|Hpart].
    + replace (Z.min (start + 20) len) with (start + 20) by lia.
      f_equal. lia.
    + replace (Z.min (start + 20) len) with len by lia.
      rewrite !take_ge; [reflexivity| |];
        rewrite length_drop; unfold len in *; lia.
Qed.

Lemma windows_concat {A} (rows : list A) (k : nat) :
  concat (map (fun p => take 20 (drop (20 * (p - 1)) rows)) (seq 1 k))
  = take (20 * k) rows.
Proof.
  induction k as [|k IH]; [reflexivity|].
  rewrite seq_S, map_app, concat_app, IH. cbn [map concat].
  rewrite app_nil_r.
  replace (20 * (1 + k - 1))%nat with (20 * k)%nat by lia.
  rewrite take_take_drop. f_equal. lia.
Qed.

Lemma pages_concat {A} (rows : list A) :
  concat (map (fun p => currentDataOf rows (Z.of_nat p))
              (seq 1 (Z.to_nat (totalPagesOf rows)))) = rows.
Proof.
  pose proof (totalPagesOf_bounds rows) as Hb.
  rewrite (map_ext_in _ (fun p => take 20 (drop (20 * (p - 1)) rows))).
  - rewrite windows_concat. apply take_ge. lia.
  - intros p Hin. apply in_seq in Hin.
    rewrite currentDataOf_window by lia. do 2 f_equal. lia.
Qed.

Lemma last_page_length {A} (rows : list A) :
  rows <> [] ->
  (1 <= length (currentDataOf rows (totalPagesOf rows)) <= 20)%nat.
Proof.
  intros Hne. pose proof (totalPagesOf_bounds rows) as Hb.
  assert (0 < length rows)%nat by (destruct rows; [contradiction | simpl; lia]).
  rewrite currentDataOf_window by lia.
  rewrite length_take, length_drop. lia.
Qed.

Lemma currentDataOf_nth {A} (rows : list A) (page : Z) (i : nat) :
  1 <= page -> (i < 20)%nat ->
  currentDataOf rows page !! i = rows !! (20 * Z.to_nat (page - 1) + i)%nat.
Proof.
  intros Hp Hi. rewrite currentDataOf_window by exact Hp.
  rewrite lookup_take_lt by exact Hi. apply lookup_drop.
Qed.

End PageFacts.

(** ** The claims *)

Section Claims.

Import Js QueryResult Spec.


(** The filter [P/E = 12] keeps the rows whose P/E prints with 12 in it. *)
Example applyFilters_view :
  applyFilters (H := ascii8) Examples.view = [Examples.acme; Examples.cara].
Proof. reflexivity. Qed.


(** C5.  For a result of N rows and pages of 20: [totalPagesOf] is the
    least T with N <= 20 * T, that is ceil(N / 20), and it is 0 for no
    rows; page p (from 1) is the window of at most twenty rows that starts
    at row 20 * (p - 1), so its i-th row is row 20 * (p - 1) + i of the
    result; the pages 1 .. T put one after the other give the result back;
    and the last page of a non-empty result holds between 1 and 20 rows. *)
Theorem pagination_correct {A} (rows : list A) :
  (20 * (totalPagesOf rows - 1) < Z.of_nat (length rows) <= 20 * totalPagesOf rows)
  /\ (rows = [] -> totalPagesOf rows = 0)
  /\ (forall page, 1 <= page ->
        currentDataOf rows page = take 20 (drop (20 * Z.to_nat (page - 1)) rows)
        /\ forall i, (i < 20)%nat ->
             currentDataOf rows page !! i
             = rows !! (20 * Z.to_nat (page - 1) + i)%nat)
  /\ concat (map (fun p => currentDataOf rows (Z.of_nat p))
                 (seq 1 (Z.to_nat (totalPagesOf rows)))) = rows
  /\ (rows <> [] ->
        (1 <= length (currentDataOf rows (totalPagesOf rows)) <= 20)%nat).
Proof.
  split; [apply totalPagesOf_bounds|].
  split; [intros ->; reflexivity|].
  split; [|split; [apply pages_concat | apply last_page_length]].
  intros page Hp. split; [apply currentDataOf_window; exact Hp|].
  intros i Hi. apply currentDataOf_nth; assumption.
Qed.

(** Forty-one rows make three pages, and the third holds the last row. *)
Lemma pagination_correct_witness :
  totalPagesOf (seq 0 41) = 3 /\ currentDataOf (seq 0 41) 3 = [40%nat].
Proof.
  pose proof (pagination_correct (seq 0 41)) as (_ & _ & Hpage & _ & _).
  split; [reflexivity|].
  rewrite (proj1 (Hpage 3 ltac:(lia))). reflexivity.
Defined.

(** C10.  Computing the current page is a total function of the result
    and the page number: for every page from 1 on it yields at most twenty
    rows, and it yields no rows at all once (page - 1) * 20 reaches the
    length of the result, also for a page beyond [totalPagesOf]. *)
Theorem currentDataOf_past_end {A} (rows : list A) (page : Z) :
  1 <= page ->
  (length (currentDataOf rows page) <= 20)%nat
  /\ ((page - 1) * 20 >= Z.of_nat (length rows) -> currentDataOf rows page = []).
Proof.
  intros Hp. rewrite currentDataOf_window by exact Hp. split.
  - rewrite length_take. lia.
  - intros Hge. rewrite drop_ge by lia. apply take_nil.
Qed.

(** Page 5 of a three-row result is empty. *)
Lemma currentDataOf_past_end_witness :
  currentDataOf [1; 2; 3] 5 = [].
Proof.
  apply (currentDataOf_past_end [1; 2; 3] 5); simpl; lia.
Defined.

(** C6.  With no sort configuration [sortData] returns its input.  With a
    configuration it returns a rearrangement of the input in which every
    row may stand in front of its successor according to the comparator.
    The comparator takes the difference of the two values when both are
    numbers, and otherwise compares their string forms with
    [localeCompare], a missing value counting as the empty string; the
    descending comparator is the ascending one with the rows swapped, so
    its sign is the opposite.  The input is not mutated: on arrays in
    memory every array that existed keeps its rows, and the sorted rows
    are in a new array (without a sort configuration the result is the
    array that was passed in). *)
Theorem sortData_correct `{Host} (st : State) (rows : list StockData) :
  (sortConfig st = None -> sortData st rows = rows)
  /\ (forall cfg, sortConfig st = Some cfg ->
        Permutation (sortData st rows) rows
        /\ Sorted (inOrder cfg) (sortData st rows))
  /\ (forall key a b,
        let ascending := {| Saved.key := key; Saved.direction := Saved.asc |} in
        let descending := {| Saved.key := key; Saved.direction := Saved.desc |} in
        (forall n m,
           getField key a = Some (VNumber n) ->
           getField key b = Some (VNumber m) ->
           compareRows ascending a b = numberSub n m)
        /\ (~ bothNumbers (getField key a) (getField key b) ->
            compareRows ascending a b
            = localeCompare (toStringOrEmpty (getField key a))
                            (toStringOrEmpty (getField key b)))
        /\ (getField key a = None ->
            toStringOrEmpty (getField key a) = EmptyString)
        /\ compareRows descending a b = compareRows ascending b a
        /\ numberSign (compareRows descending a b)
           = - numberSign (compareRows ascending a b))
  /\ (forall ref (h : list (list StockData)),
        h !! ref = Some rows ->
        exists out h',
          InPlace.sortData st ref h = Some (out, h')
          /\ h' !! out = Some (sortData st rows)
          /\ (forall a xs, h !! a = Some xs -> h' !! a = Some xs)
          /\ (sortConfig st = None -> out = ref /\ h' = h)
          /\ (sortConfig st <> None -> out = length h)).
Proof.
  split; [|split; [|split]];
    [| | |intros ref h; apply inPlace_sortData].
  - intros Hnone. unfold sortData. rewrite Hnone. reflexivity.
  - intros cfg Hcfg. split; [apply sortData_perm|].
    unfold sortData. rewrite Hcfg.
    apply arraySort_Sorted. apply compareRows_antisym.
  - intros key a b ascending descending. repeat split.
    + intros n m Ha Hb. unfold compareRows. simpl. rewrite Ha, Hb. reflexivity.
    + intros Hnot. unfold compareRows. simpl.
      destruct (getField key a) as [[x| | |]|] eqn:Ha,
               (getField key b) as [[y| | |]|] eqn:Hb; try reflexivity.
      exfalso. apply Hnot. exists x, y. split; reflexivity.
    + intros ->. reflexivity.
    + apply compareRows_desc.
    + unfold descending. rewrite compareRows_desc. apply compareRows_antisym.
Qed.

(** Sorting by P/E, ascending, puts 7 before 12 before 112. *)
Lemma sortData_correct_witness :
  let st := handleSort (H := ascii8) "P/E" Examples.view in
  Sorted (inOrder {| Saved.key := "P/E"; Saved.direction := Saved.asc |})
         (sortData st [Examples.acme; Examples.bolt; Examples.cara])
  /\ sortData st [Examples.acme; Examples.bolt; Examples.cara]
     = [Examples.bolt; Examples.acme; Examples.cara].
Proof.
  intros st. split; [|reflexivity].
  apply (proj1 (proj2 (sortData_correct (H := ascii8) st
                         [Examples.acme; Examples.bolt; Examples.cara]))).
  reflexivity.
Defined.

(** Two clicks on the P/E column sort in descending order. *)
Example sortData_twice :
  filteredAndSortedData (H := ascii8)
    (handleSort "P/E" (handleSort "P/E" Examples.view))
  = [Examples.cara; Examples.acme].
Proof. reflexivity. Qed.



(** C8.  When the filtered and sorted result is empty, the export handler
    shows the notice "No data to export" and does nothing else: no text is
    built, no file is offered, and the component state is the one it
    started from.  A header-only file is never produced, because a result
    with a first row takes the other branch, which writes that row. *)
Theorem exportToCSV_empty `{Host} (today : string) (st : State) :
  (filteredAndSortedData st = [] ->
     exportToCSV today st = (st, [Alert "No data to export"]))
  /\ (forall first rest, filteredAndSortedData st = first :: rest ->
        exportToCSV today st
        = (st, [Download ("stock-query-results-" ++ today ++ ".csv")
                  (csvContent (objectKeys first) (first :: rest))])).
Proof.
  unfold filteredAndSortedData, exportToCSV. split.
  - intros ->. reflexivity.
  - intros first rest ->. reflexivity.
Qed.

(** The export of the example view: a header and the two kept rows. *)
Example exportToCSV_view :
  (exportToCSV (H := ascii8) "2024-01-01" Examples.view).2
  = [Download "stock-query-results-2024-01-01.csv"
       ("S.No,Name,P/E" ++ Str.single Str.newline
        ++ "1,Acme,12" ++ Str.single Str.newline
        ++ "3," ++ Str.single Str.dquote ++ "Cara, Inc"
        ++ Str.single Str.dquote ++ ",112")].
Proof. reflexivity. Qed.

(** Before any data is loaded there is nothing to export. *)
Lemma exportToCSV_empty_witness :
  exportToCSV (H := ascii8) "2024-01-01" initialState
  = (initialState, [Alert "No data to export"]).
Proof.
  apply (proj1 (exportToCSV_empty (H := ascii8) "2024-01-01" initialState)).
  reflexivity.
Defined.

(** *** The store keeps its entries as they are *)

Lemma captureQuery_counts `{Host} (nowIso : string) (st : State) :
  countsOrdered (captureQuery nowIso st).
Proof.
  unfold countsOrdered, captureQuery, applyFilters. simpl.
  pose proof (filter_length_le (matchesAll (filters st)) (data st)). lia.
Qed.

Lemma newQuery_counts `{Host} (now : Z) (form : Save.State) (qd : Saved.SavedQuery) :
  Saved.resultCount (Save.newQuery now form qd) = Saved.resultCount qd
  /\ Saved.totalCount (Save.newQuery now form qd) = Saved.totalCount qd.
Proof. split; reflexivity. Qed.

Lemma listQueries_stored (queries : list Saved.SavedQuery) :
  Storage.listQueries (Storage.Stored queries) = queries.
Proof. reflexivity. Qed.

(** What [Save.saveQuery] leaves under the storage key. *)
Lemma saveQuery_blob `{Host} (now : Z) (form : Save.State) (ls : Storage.Blob) :
  (Save.saveQuery now form ls).1.2 = ls
  \/ exists qd, Save.queryData form = Some qd
       /\ (Save.saveQuery now form ls).1.2
          = Storage.Stored (Storage.listQueries ls ++ [Save.newQuery now form qd]).
Proof.
  unfold Save.saveQuery.
  destruct (Save.queryData form) as [qd|]; [|left; reflexivity].
  destruct (Save.nameMissing form); [left; reflexivity|].
  destruct ls as [| |existing]; [right | left | right]; try reflexivity;
    exists qd; split; reflexivity.
Qed.

(** An action carries every entry over unchanged, or adds the query that
    [Save.newQuery] builds from a capture. *)
Lemma act_entries `{Host} (w : World) (a : Action) (q : Saved.SavedQuery) :
  In q (entries (act w a)) ->
  In q (entries w)
  \/ exists nowIso view now name description tags,
       a = Create nowIso view now name description tags
       /\ q = Save.newQuery now
                (saveForm (captureQuery nowIso view) name description tags)
                (captureQuery nowIso view).
Proof.
  unfold entries. destruct a as [|nowIso view now name description tags|confirmed id];
    simpl; intros Hin.
  - left. apply in_app_iff in Hin. apply in_app_iff.
    destruct Hin as [Hin|Hin]; [left; exact Hin|].
    unfold MyQuery.onMount, Storage.loadSavedQueries in Hin.
    destruct (blob w); [right | right | left]; exact Hin.
  - apply in_app_iff in Hin. destruct Hin as [Hin|Hin];
      [|left; apply in_app_iff; right; exact Hin].
    destruct (saveQuery_blob now
                (saveForm (captureQuery nowIso view) name description tags)
                (blob w)) as [Heq|(qd & Hqd & Heq)]; rewrite Heq in Hin.
    + left. apply in_app_iff. left. exact Hin.
    + rewrite listQueries_stored in Hin. apply in_app_iff in Hin.
      destruct Hin as [Hin|[<-|[]]].
      * left. apply in_app_iff. left. exact Hin.
      * right. simpl in Hqd. injection Hqd as <-.
        exists nowIso, view, now, name, description, tags. split; reflexivity.
  - left. unfold MyQuery.onDelete, Storage.deleteQuery in Hin.
    destruct confirmed; simpl in Hin; [|exact Hin].
    apply in_app_iff. right.
    apply in_app_iff in Hin. destruct Hin as [Hin|Hin];
      apply filter_In in Hin; tauto.
Qed.

Lemma act_countsOrdered `{Host} (w : World) (a : Action) :
  Forall countsOrdered (entries w) -> Forall countsOrdered (entries (act w a)).
Proof.
  rewrite !List.Forall_forall. intros Hall q Hin.
  apply act_entries in Hin.
  destruct Hin as [Hin|(nowIso & view & now & name & description & tags & _ & ->)].
  - apply Hall. exact Hin.
  - unfold countsOrdered. simpl. apply (captureQuery_counts nowIso view).
Qed.

Lemma session_countsOrdered `{Host} (actions : list Action) (w : World) :
  Forall countsOrdered (entries w) ->
  Forall countsOrdered (entries (session w actions)).
Proof.
  revert w. induction actions as [|a actions IH]; intros w Hw; [exact Hw|].
  simpl. apply IH, act_countsOrdered, Hw.
Qed.

(** C9.  A capture takes [resultCount] to be the number of rows the filter
    keeps and [totalCount] the number of rows loaded, so the first never
    exceeds the second; creating the saved query copies both counts
    without change; and every action on the store carries each entry over
    as it is or adds such a new query, so the counts of an entry are never
    recomputed and [resultCount <= totalCount] holds for every entry
    throughout a session. *)
Theorem counts_frozen `{Host} :
  (forall nowIso st,
     Saved.resultCount (captureQuery nowIso st)
       = Z.of_nat (length (applyFilters st))
     /\ Saved.totalCount (captureQuery nowIso st) = Z.of_nat (length (data st))
     /\ Saved.resultCount (captureQuery nowIso st)
          <= Saved.totalCount (captureQuery nowIso st))
  /\ (forall now form qd,
        Saved.resultCount (Save.newQuery now form qd) = Saved.resultCount qd
        /\ Saved.totalCount (Save.newQuery now form qd) = Saved.totalCount qd)
  /\ (forall w a q,
        In q (entries (act w a)) ->
        In q (entries w)
        \/ exists nowIso view now name description tags,
             a = Create nowIso view now name description tags
             /\ q = Save.newQuery now
                      (saveForm (captureQuery nowIso view) name description tags)
                      (captureQuery nowIso view))
  /\ (forall w actions,
        Forall countsOrdered (entries w) ->
        Forall countsOrdered (entries (session w actions))).
Proof.
  split; [|split; [|split]].
  - intros nowIso st. split; [reflexivity|]. split; [reflexivity|].
    apply (captureQuery_counts nowIso st).
  - intros now form qd. apply newQuery_counts.
  - intros w a q. apply act_entries.
  - intros w actions. apply session_countsOrdered.
Qed.

(** The counts stay ordered through the example session. *)
Lemma counts_frozen_witness :
  Forall countsOrdered
    (entries (session (H := ascii8) Examples.start
                [Mount; Examples.secondSave; Delete true "none"])).
Proof.
  apply (proj2 (proj2 (proj2 (counts_frozen (H := ascii8))))).
  repeat constructor; discriminate.
Defined.

(** *** Creating a saved query *)

Lemma NoDup_snoc {A} (xs : list A) (x : A) :
  NoDup (xs ++ [x]) <-> NoDup xs /\ ~ In x xs.
Proof.
  rewrite (Permutation_app_comm xs [x]). simpl.
  rewrite NoDup_cons, list_elem_of_In. tauto.
Qed.

(** C3, as the code has it.  A create call whose definition is missing or
    whose trimmed name is empty shows a notice and leaves the component
    and the persisted collection unchanged.  Otherwise the new saved query
    takes its filters, sort configuration, timestamp and counts from the
    captured definition, the trimmed name and description and the selected
    tags from the form, and as id the one the definition carries or else
    the decimal form of the clock reading [Date.now()].  When the key holds
    text that cannot be parsed, the call shows an error notice and leaves
    the key unchanged; when the key is absent or holds a collection, the
    new query is appended to that collection and the whole collection is
    written back, so that listing the store afterwards gives the previous
    entries followed by the new one, one entry more.  The id is not
    compared with the stored ones: the ids of the new collection are
    distinct exactly when the old ones were and none of them is the new
    id. *)
Theorem saveQuery_correct `{Host} (now : Z) (form : Save.State)
  (ls : Storage.Blob) :
  (Save.queryData form = None \/ Save.nameMissing form = true ->
     Save.saveQuery now form ls
     = (form, ls, [Alert "Please enter a name for your query"]))
  /\ (forall qd,
        Save.queryData form = Some qd -> Save.nameMissing form = false ->
        let q := Save.newQuery now form qd in
        let after := (Save.saveQuery now form ls).1.2 in
        q = {| Saved.id := match Saved.id qd with
                           | Some i => Some i
                           | None => Some (Storage.dateNowString now)
                           end;
               Saved.name := trim (Save.name form);
               Saved.description := trim (Save.description form);
               Saved.tags := Save.selectedTags form;
               Saved.filters := Saved.filters qd;
               Saved.sortConfig := Saved.sortConfig qd;
               Saved.timestamp := Saved.timestamp qd;
               Saved.resultCount := Saved.resultCount qd;
               Saved.totalCount := Saved.totalCount qd |}
        /\ (ls = Storage.Unreadable ->
            after = ls
            /\ (Save.saveQuery now form ls).2
               = [Alert "Error saving query. Please try again."])
        /\ (ls <> Storage.Unreadable ->
            after = Storage.Stored (Storage.listQueries ls ++ [q])
            /\ Storage.listQueries after = Storage.listQueries ls ++ [q]
            /\ length (Storage.listQueries after)
               = S (length (Storage.listQueries ls))
            /\ (NoDup (map Saved.id (Storage.listQueries after)) <->
                NoDup (map Saved.id (Storage.listQueries ls))
                /\ ~ In (Saved.id q) (map Saved.id (Storage.listQueries ls))))).
Proof.
  split.
  - intros [Hnone|Hname]; unfold Save.saveQuery.
    + rewrite Hnone. reflexivity.
    + rewrite Hname. destruct (Save.queryData form); reflexivity.
  - intros qd Hqd Hname q after. split; [reflexivity|].
    subst after. unfold Save.saveQuery. rewrite Hqd, Hname. split.
    + intros ->. split; reflexivity.
    + intros Hread.
      assert (Hafter :
        (match ls with
         | Storage.Absent =>
             (Save.setSaving false form,
              Storage.Stored ([] ++ [Save.newQuery now form qd]),
              [Alert "Query saved successfully!"; Push "/my-query"])
         | Storage.Unreadable =>
             (Save.setSaving false form, ls,
              [Alert "Error saving query. Please try again."])
         | Storage.Stored existingQueries =>
             (Save.setSaving false form,
              Storage.Stored (existingQueries ++ [Save.newQuery now form qd]),
              [Alert "Query saved successfully!"; Push "/my-query"])
         end).1.2 = Storage.Stored (Storage.listQueries ls ++ [q])).
      { destruct ls; [reflexivity | contradiction | reflexivity]. }
      rewrite Hafter, listQueries_stored.
      split; [reflexivity|]. split; [reflexivity|]. split.
      * rewrite length_app. simpl. lia.
      * rewrite map_app. simpl. apply NoDup_snoc.
Qed.

(** A name of blanks is rejected and nothing is written. *)
Example saveQuery_blank_name :
  Save.saveQuery (H := ascii8) 1700000000500 Examples.blankForm
    (Storage.Stored [Examples.older])
  = (Examples.blankForm, Storage.Stored [Examples.older],
     [Alert "Please enter a name for your query"]).
Proof. reflexivity. Qed.

(** Saving the example form on a store that holds [older], half a second
    after [older] was saved, lists [older] and then the new query. *)
Lemma saveQuery_correct_witness :
  Storage.listQueries
    (Save.saveQuery (H := ascii8) 1700000000500 Examples.form
       (Storage.Stored [Examples.older])).1.2
  = [Examples.older;
     Save.newQuery (H := ascii8) 1700000000500 Examples.form Examples.captured].
Proof.
  apply (proj2 (saveQuery_correct (H := ascii8) 1700000000500 Examples.form
                  (Storage.Stored [Examples.older]))
           Examples.captured eq_refl eq_refl).
  discriminate.
Defined.

(** C3 fails as stated: the id is the clock reading, and no check makes it
    fresh.  Saving at the clock reading at which [older] was saved appends
    a second entry with the id of [older]. *)
Lemma saveQuery_id_clash :
  Save.nameMissing (H := ascii8) Examples.form = false
  /\ (Save.saveQuery (H := ascii8) 1700000000000 Examples.form
        (Storage.Stored [Examples.older])).1.2
     = Storage.Stored
         [Examples.older;
          Save.newQuery (H := ascii8) 1700000000000 Examples.form
            Examples.captured]
  /\ Saved.id (Save.newQuery (H := ascii8) 1700000000000 Examples.form
                 Examples.captured)
     = Saved.id Examples.older
  /\ ~ NoDup (map Saved.id
               (Storage.listQueries
                  (Save.saveQuery (H := ascii8) 1700000000000 Examples.form
                     (Storage.Stored [Examples.older])).1.2)).
Proof.
  split; [reflexivity|]. split; [reflexivity|]. split; [reflexivity|].
  intros Hnd. apply NoDup_cons in Hnd. destruct Hnd as [Hnotin _].
  apply Hnotin. left.
Qed.

(** *** Replacing the whole collection *)

(** While only the MyQuery page acts, its copy mirrors the key. *)
Lemma deletes_keep_mirror `{Host} (steps : list (bool * string)) (w : World) :
  shown w = Storage.listQueries (blob w) ->
  let w' := session w (map (fun s => Delete s.1 s.2) steps) in
  shown w' = Storage.listQueries (blob w').
Proof.
  revert w. induction steps as [|[confirmed id] steps IH]; intros w Hw;
    [exact Hw|].
  simpl. apply IH. unfold MyQuery.onDelete, Storage.deleteQuery.
  destruct confirmed; simpl; [reflexivity | exact Hw].
Qed.

(** C4, as the code has it.  Creating reads the key, appends to the
    collection it has just read and writes the whole result back (or
    writes nothing, when the form is rejected or the key cannot be
    parsed).  Deleting does not read the key: a confirmed delete removes
    the id from the copy of the collection that the component loaded when
    it mounted and writes that whole copy back under the key, and a
    declined one changes nothing.  The written collection is the persisted
    one without the id whenever the copy still equals the persisted
    collection, which stays true as long as the page that mounted is the
    only one to act. *)
Theorem store_mutations `{Host} :
  (forall now form ls,
     (Save.saveQuery now form ls).1.2 = ls
     \/ exists qd, Save.queryData form = Some qd
          /\ (Save.saveQuery now form ls).1.2
             = Storage.Stored
                 (Storage.listQueries ls ++ [Save.newQuery now form qd]))
  /\ (forall id savedQueries ls,
        Storage.deleteQuery true id savedQueries ls
        = (List.filter (Storage.idDiffers id) savedQueries,
           Storage.Stored (List.filter (Storage.idDiffers id) savedQueries))
        /\ Storage.deleteQuery false id savedQueries ls = (savedQueries, ls))
  /\ (forall id savedQueries ls,
        savedQueries = Storage.listQueries ls ->
        (Storage.deleteQuery true id savedQueries ls).2
        = Storage.Stored
            (List.filter (Storage.idDiffers id) (Storage.listQueries ls)))
  /\ (forall ls steps,
        let w := act {| blob := ls; shown := MyQuery.initialState |} Mount in
        let w' := session w (map (fun s => Delete s.1 s.2) steps) in
        shown w' = Storage.listQueries (blob w')).
Proof.
  split; [|split; [|split]].
  - intros now form ls. apply saveQuery_blob.
  - intros id savedQueries ls. split; reflexivity.
  - intros id savedQueries ls ->. reflexivity.
  - intros ls steps w w'. apply deletes_keep_mirror.
    destruct ls; reflexivity.
Qed.

(** A page that has just loaded the collection [older] deletes it. *)
Lemma store_mutations_witness :
  (Storage.deleteQuery true "1700000000000" [Examples.older]
     (Storage.Stored [Examples.older])).2
  = Storage.Stored [].
Proof.
  apply (proj1 (proj2 (proj2 (store_mutations (H := ascii8))))
           "1700000000000"%string [Examples.older]
           (Storage.Stored [Examples.older])).
  reflexivity.
Defined.

(** C4 fails as stated for delete.  In the example session the key holds
    [older] and [second] when the delete button is confirmed for an id
    that no entry has; removing that id from the collection read at that
    moment would leave both entries, but the handler writes back the copy
    loaded at mount time and [second] is gone. *)
Lemma deleteQuery_writes_mounted_copy :
  blob (session (H := ascii8) Examples.start [Mount; Examples.secondSave])
  = Storage.Stored [Examples.older; Examples.second]
  /\ List.filter (Storage.idDiffers "none") [Examples.older; Examples.second]
     = [Examples.older; Examples.second]
  /\ blob (session (H := ascii8) Examples.start
             [Mount; Examples.secondSave; Delete true "none"])
     = Storage.Stored [Examples.older].
Proof. split; [|split]; reflexivity. Qed.

(** *** The current page *)

Lemma pageNumAt_range (total current i : Z) :
  1 < total -> 0 <= i < Z.min 5 total ->
  1 <= pageNumAt total current i <= total.
Proof.
  intros Ht Hi. unfold pageNumAt. rewrite Z.geb_leb.
  destruct (Z.leb_spec total 5); [lia|].
  destruct (Z.leb_spec current 3); [lia|].
  destruct (Z.leb_spec (total - 2) current); lia.
Qed.

(** Every rendered page control leads to a page of the current result. *)
Lemma pageTargets_range (total current page : Z) :
  1 <= current -> In page (pageTargets total current) -> 1 <= page <= total.
Proof.
  intros Hc. unfold pageTargets.
  destruct (Z.ltb_spec 1 total) as [Ht|Ht]; [|intros []].
  rewrite !in_app_iff, in_map_iff. intros [(i & <- & Hi)|[Hlast|Hnext]].
  - apply in_seq in Hi. apply pageNumAt_range; lia.
  - destruct ((5 <? total) && (current <? total - 2)); [|destruct Hlast].
    destruct Hlast as [<-|[]]. lia.
  - destruct (Z.ltb_spec current total); [|destruct Hnext].
    destruct Hnext as [<-|[]]. lia.
Qed.

Lemma handleSort_applyFilters `{Host} (key : string) (st : State) :
  applyFilters (handleSort key st) = applyFilters st.
Proof. reflexivity. Qed.

Lemma handleSort_totalPages `{Host} (key : string) (st : State) :
  totalPages (handleSort key st) = totalPages st.
Proof.
  unfold totalPages, totalPagesOf, filteredAndSortedData.
  rewrite !sortData_length, handleSort_applyFilters. reflexivity.
Qed.

(** C2, as the code has it.  The page number is 1 when the component
    starts and is written by [handlePageChange] alone: a change of the sort
    configuration, of the filters or of the loaded data leaves it as it
    is.  Every page control that is rendered leads to a page between 1 and
    [totalPages] of the result shown at that time, so the page number is
    at least 1 throughout; and a change of the sort configuration keeps
    [totalPages], so it also keeps the page number within [totalPages]. *)
Theorem currentPage_transitions `{Host} (st : State) :
  currentPage initialState = 1
  /\ (forall key,
        currentPage (handleSort key st) = currentPage st
        /\ totalPages (handleSort key st) = totalPages st
        /\ (1 <= currentPage st <= totalPages st ->
            1 <= currentPage (handleSort key st)
              <= totalPages (handleSort key st)))
  /\ (forall urlFilters,
        currentPage (onSearchParams urlFilters st) = currentPage st)
  /\ (forall result, currentPage (onFetched result st) = currentPage st)
  /\ (forall page,
        1 <= currentPage st ->
        In page (pageTargets (totalPages st) (currentPage st)) ->
        currentPage (handlePageChange page st) = page
        /\ totalPages (handlePageChange page st) = totalPages st
        /\ 1 <= page <= totalPages st).
Proof.
  split; [reflexivity|]. split; [|split; [|split]].
  - intros key. split; [reflexivity|]. split; [apply handleSort_totalPages|].
    rewrite handleSort_totalPages. simpl. tauto.
  - reflexivity.
  - reflexivity.
  - intros page Hc Hin. split; [reflexivity|]. split; [reflexivity|].
    apply (pageTargets_range _ _ _ Hc Hin).
Qed.

(** On page 2 of the twenty-one example rows, sorting by name keeps the
    page number within the two pages. *)
Lemma currentPage_transitions_witness :
  1 <= currentPage (handleSort (H := ascii8) "Name"
                      (handlePageChange 2 Examples.wide))
    <= totalPages (handleSort (H := ascii8) "Name"
                     (handlePageChange 2 Examples.wide)).
Proof.
  apply (proj1 (proj2 (currentPage_transitions (H := ascii8)
                         (handlePageChange 2 Examples.wide)))
           "Name"%string).
  vm_compute. split; discriminate.
Defined.

(** C2 fails as stated.  With the twenty-one example rows, page 2 is one
    of the rendered page controls.  From page 2, a click on the Name
    column changes the sort configuration and the page number is still 2;
    and when the URL then asks for the name row20 and the data is loaded
    again, one row remains, on one page, while the page number is still 2
    and the page shown is empty. *)
Lemma currentPage_not_reset :
  In 2 (pageTargets (totalPages (H := ascii8) Examples.wide)
          (currentPage Examples.wide))
  /\ (let st := handlePageChange (H := ascii8) 2 Examples.wide in
      sortConfig (handleSort "Name" st) <> sortConfig st
      /\ currentPage (handleSort "Name" st) = 2)
  /\ (let st :=
        onFetched (H := ascii8) Examples.manyRows
          (onSearchParams {[ "Name"%string := "row20"%string ]}
             (handlePageChange 2 Examples.wide)) in
      filters st <> filters (handlePageChange (H := ascii8) 2 Examples.wide)
      /\ totalPages st = 1
      /\ currentPage st = 2
      /\ currentData st = []).
Proof.
  split; [vm_compute; tauto|]. split.
  - split; [discriminate | reflexivity].
  - split; [|split; [|split]]; [|vm_compute; reflexivity..].
    intros Heq. apply (f_equal (fun m => m !! "Name"%string)) in Heq.
    vm_compute in Heq. discriminate.
Qed.

End Claims.

(** * Further properties of the modelled code *)

Section Further.

Import Js QueryResult Spec.

(** ** Filtering *)

Lemma filter_filter_implied {A} (p q : A -> bool) (xs : list A) :
  (forall x, q x = true -> p x = true) ->
  List.filter q xs = List.filter q (List.filter p xs).
Proof.
  intros Himp. induction xs as [|x xs IH]; simpl; [reflexivity|].
  destruct (q x) eqn:Hq.
  - rewrite (Himp x Hq). simpl. rewrite Hq, IH. reflexivity.
  - destruct (p x); simpl; rewrite ?Hq; exact IH.
Qed.

Lemma mathCeilDiv_mono (a b d : Z) :
  0 < d -> a <= b -> mathCeilDiv a d <= mathCeilDiv b d.
Proof.
  intros Hd Hab.
  pose proof (mathCeilDiv_bounds a d Hd). pose proof (mathCeilDiv_bounds b d Hd).
  nia.
Qed.

(** X1.  A filter set in which every value is the empty string constrains
    nothing: the filter returns the loaded rows as they are. *)
Theorem applyFilters_no_constraint `{Host} (st : State) :
  (forall key value, filters st !! key = Some value -> value = EmptyString) ->
  applyFilters st = data st.
Proof.
  intros Hall. unfold applyFilters. apply forallb_filter_id.
  apply forallb_forall. intros item _. apply matchesAll_spec.
  intros f v Hv Hne. apply Hall in Hv. contradiction.
Qed.

(** The filter set with an empty P/E value keeps all four example rows. *)
Lemma applyFilters_no_constraint_witness :
  applyFilters (H := ascii8)
    (onSearchParams {[ "P/E"%string := EmptyString ]} Examples.view)
  = [Examples.acme; Examples.bolt; Examples.cara; Examples.dune].
Proof.
  apply (applyFilters_no_constraint (H := ascii8)
           (onSearchParams {[ "P/E"%string := EmptyString ]} Examples.view)).
  intros key value Hkv. unfold onSearchParams, filters in Hkv.
  apply lookup_singleton_Some in Hkv. destruct Hkv as [_ <-]. reflexivity.
Defined.

(** X2.  Constraints only narrow.  When a second view has the same rows
    loaded and its filter set holds every non-empty entry of the first,
    its filtered rows are those of the first view filtered once more: they
    form a subsequence of them, and the second view has no more pages than
    the first, whatever the two sort configurations are. *)
Theorem applyFilters_narrowing `{Host} (st st' : State) :
  data st' = data st ->
  (forall key value,
     filters st !! key = Some value -> value <> EmptyString ->
     filters st' !! key = Some value) ->
  applyFilters st' = List.filter (matchesAll (filters st')) (applyFilters st)
  /\ applyFilters st' `sublist_of` applyFilters st
  /\ totalPages st' <= totalPages st.
Proof.
  intros Hdata Hsub.
  assert (Heq : applyFilters st'
                = List.filter (matchesAll (filters st')) (applyFilters st)).
  { unfold applyFilters. rewrite Hdata. apply filter_filter_implied.
    intros item Hitem. apply matchesAll_spec. apply matchesAll_spec in Hitem.
    intros f v Hv Hne. apply Hitem; [apply Hsub; assumption | exact Hne]. }
  split; [exact Heq|]. split.
  - rewrite Heq. apply filter_sublist.
  - unfold totalPages, totalPagesOf, filteredAndSortedData.
    rewrite !sortData_length. apply mathCeilDiv_mono; [reflexivity|].
    rewrite Heq. pose proof (filter_length_le (matchesAll (filters st'))
                               (applyFilters st)). lia.
Qed.

(** Adding the constraint [Name = ca] to the example view leaves one of its
    two rows. *)
Lemma applyFilters_narrowing_witness :
  applyFilters (H := ascii8)
    (onSearchParams {[ "P/E"%string := "12"%string; "Name"%string := "ca"%string ]}
       Examples.view)
  `sublist_of` applyFilters (H := ascii8) Examples.view.
Proof.
  apply (applyFilters_narrowing (H := ascii8) Examples.view
           (onSearchParams
              {[ "P/E"%string := "12"%string; "Name"%string := "ca"%string ]}
              Examples.view) eq_refl).
  intros key value Hkv _. unfold Examples.view, filters in Hkv.
  apply lookup_singleton_Some in Hkv.
  destruct Hkv as [<- <-]. vm_compute. reflexivity.
Defined.

(** ** Clicking a column header *)

(** X3.  A click on a column header always leaves a sort configuration on
    that column, so the view never returns to the unsorted order; the
    direction is descending exactly when the column was already sorted
    ascending.  A second click on the same column reverses the direction,
    a third click gives the state of the first, and a click on another
    column sorts that one ascending. *)
Theorem handleSort_cycle `{Host} (key : string) (st : State) :
  exists d,
    sortConfig (handleSort key st)
      = Some {| Saved.key := key; Saved.direction := d |}
    /\ (d = Saved.desc <->
        sortConfig st = Some {| Saved.key := key; Saved.direction := Saved.asc |})
    /\ sortConfig (handleSort key (handleSort key st))
       = Some {| Saved.key := key; Saved.direction := otherDirection d |}
    /\ handleSort key (handleSort key (handleSort key st)) = handleSort key st
    /\ (forall other, other <> key ->
          sortConfig (handleSort other (handleSort key st))
          = Some {| Saved.key := other; Saved.direction := Saved.asc |}).
Proof.
  unfold handleSort. simpl. rewrite String.eqb_refl. simpl.
  destruct (sortConfig st) as [[k d0]|] eqn:Hcfg; simpl.
  - destruct (String.eqb_spec k key) as [->|Hne]; simpl.
    + destruct d0; simpl; eexists; (split; [reflexivity|]);
        (split; [split; [try discriminate; reflexivity | congruence]|]);
        rewrite ?String.eqb_refl; simpl;
        (split; [reflexivity|]); (split; [reflexivity|]);
        intros other Hother;
        destruct (String.eqb_spec key other); [congruence | reflexivity
                                               | congruence | reflexivity].
    + exists Saved.asc. split; [reflexivity|].
      split; [split; [discriminate | intros [= ? ?]; contradiction]|].
      rewrite ?String.eqb_refl. simpl.
      split; [reflexivity|]. split; [reflexivity|].
      intros other Hother.
      destruct (String.eqb_spec key other); [congruence | reflexivity].
  - exists Saved.asc. split; [reflexivity|].
    split; [split; discriminate|].
    rewrite ?String.eqb_refl. simpl.
    split; [reflexivity|]. split; [reflexivity|].
    intros other Hother.
    destruct (String.eqb_spec key other); [congruence | reflexivity].
Qed.

(** ** The page controls *)

Lemma pageNumAt_offset (total current i : Z) :
  pageNumAt total current i = pageNumAt total current 0 + i.
Proof.
  unfold pageNumAt.
  destruct (total <=? 5); [lia|].
  destruct (current <=? 3); [lia|].
  destruct (current >=? total - 2); lia.
Qed.

Lemma pageNumbers_seqZ (total current : Z) :
  pageNumbers total current = seqZ (pageNumAt total current 0) (Z.min 5 total).
Proof.
  unfold pageNumbers, seqZ.
  induction (seq 0 (Z.to_nat (Z.min 5 total))) as [|i is_ IH];
    [reflexivity|].
  cbn [map fmap list_fmap]. rewrite pageNumAt_offset. f_equal; [lia | exact IH].
Qed.

(** X4.  When there is more than one page, the numbered buttons show
    min(5, totalPages) consecutive pages, all between 1 and [totalPages],
    and the current page is one of them whenever it lies between 1 and
    [totalPages]. *)
Theorem pageNumbers_window (total current : Z) :
  1 < total ->
  let first := pageNumAt total current 0 in
  pageNumbers total current = seqZ first (Z.min 5 total)
  /\ 1 <= first
  /\ first + Z.min 5 total - 1 <= total
  /\ (1 <= current <= total -> In current (pageNumbers total current)).
Proof.
  intros Ht first. split; [apply pageNumbers_seqZ|].
  assert (Hfirst : 1 <= first /\ first + Z.min 5 total - 1 <= total
                   /\ (1 <= current <= total ->
                       first <= current < first + Z.min 5 total)).
  { subst first. unfold pageNumAt. rewrite Z.geb_leb.
    destruct (Z.leb_spec total 5); [lia|].
    destruct (Z.leb_spec current 3); [lia|].
    destruct (Z.leb_spec (total - 2) current); lia. }
  destruct Hfirst as (H1 & H2 & H3). split; [exact H1|]. split; [exact H2|].
  intros Hc. rewrite pageNumbers_seqZ, <- list_elem_of_In, elem_of_seqZ.
  apply H3, Hc.
Qed.

(** With 12 pages and page 7 current, the buttons show pages 5 to 9. *)
Lemma pageNumbers_window_witness :
  pageNumbers 12 7 = [5; 6; 7; 8; 9].
Proof.
  rewrite (proj1 (pageNumbers_window 12 7 ltac:(lia))). reflexivity.
Defined.

(** X5.  When there is more than one page, the ellipsis with the last-page
    button is rendered exactly when the last page is not one of the
    numbered buttons: the last page can always be reached with one click
    and is never offered twice by these two controls.  This holds for any
    page number, also one that is out of range. *)
Theorem lastPage_offered_once (total current : Z) :
  1 < total ->
  (lastPageShown total current = true <-> ~ In total (pageNumbers total current))
  /\ pageTargets total current
     = pageNumbers total current
       ++ (if lastPageShown total current then [total] else [])
       ++ (if current <? total then [current + 1] else []).
Proof.
  intros Ht. split.
  - rewrite pageNumbers_seqZ, <- list_elem_of_In, elem_of_seqZ.
    unfold lastPageShown, pageNumAt. rewrite Z.geb_leb.
    rewrite andb_true_iff, !Z.ltb_lt.
    destruct (Z.leb_spec total 5); [lia|].
    destruct (Z.leb_spec current 3); [lia|].
    destruct (Z.leb_spec (total - 2) current); lia.
  - unfold pageTargets.
    destruct (Z.ltb_spec 1 total); [reflexivity | lia].
Qed.

(** With 12 pages and page 7 current, the last-page button is shown. *)
Lemma lastPage_offered_once_witness :
  lastPageShown 12 7 = true /\ ~ In 12 (pageNumbers 12 7).
Proof.
  split; [reflexivity|].
  apply (proj1 (lastPage_offered_once 12 7 ltac:(lia))). reflexivity.
Defined.

(** ** Sorting in the other direction *)

Section SortedLists.
Variable A : Type.
Variable R : A -> A -> Prop.

Lemma Sorted_StronglySorted_on (xs : list A) :
  (forall a b c, In a xs -> In b xs -> In c xs -> R a b -> R b c -> R a c) ->
  Sorted R xs -> StronglySorted R xs.
Proof.
  induction xs as [|x xs IH]; intros Htrans Hs; [constructor|].
  inversion Hs as [|? ? Hs' Hhd]; subst.
  assert (Hss : StronglySorted R xs).
  { apply IH; [|exact Hs']. intros a b c Ha Hb Hc.
    apply Htrans; right; assumption. }
  constructor; [exact Hss|].
  destruct xs as [|y ys]; [constructor|].
  inversion Hhd as [|? ? Hxy]; subst.
  inversion Hss as [|? ? _ Hall]; subst.
  constructor; [exact Hxy|].
  rewrite List.Forall_forall in *. intros z Hz.
  apply (Htrans x y z); [left; reflexivity | right; left; reflexivity
                         | right; right; exact Hz | exact Hxy | apply Hall, Hz].
Qed.

Lemma StronglySorted_snoc (xs : list A) (x : A) :
  StronglySorted R xs -> (forall y, In y xs -> R y x) ->
  StronglySorted R (xs ++ [x]).
Proof.
  induction 1 as [|y ys Hs IH Hall]; intros Hx; simpl.
  - repeat constructor.
  - constructor; [apply IH; intros z Hz; apply Hx; right; exact Hz|].
    rewrite List.Forall_forall in *. intros z Hz.
    apply in_app_iff in Hz. destruct Hz as [Hz|[<-|[]]].
    + apply Hall, Hz.
    + apply Hx. left. reflexivity.
Qed.

Lemma StronglySorted_unique (xs ys : list A) :
  (forall a b, In a xs -> In b xs -> R a b -> R b a -> a = b) ->
  StronglySorted R xs -> StronglySorted R ys -> Permutation xs ys -> xs = ys.
Proof.
  revert ys. induction xs as [|x xs IH]; intros ys Hanti Hxs Hys Hperm.
  - apply Permutation_nil in Hperm. congruence.
  - destruct ys as [|y ys];
      [apply Permutation_sym, Permutation_nil in Hperm; discriminate|].
    inversion Hxs as [|? ? Hxs' Hx]; subst.
    inversion Hys as [|? ? Hys' Hy]; subst.
    rewrite List.Forall_forall in Hx, Hy.
    assert (Heq : x = y).
    { assert (Hin1 : In x (y :: ys))
        by (apply (Permutation_in _ Hperm); left; reflexivity).
      assert (Hin2 : In y (x :: xs))
        by (apply (Permutation_in _ (Permutation_sym Hperm)); left; reflexivity).
      destruct Hin1 as [->|Hin1]; [reflexivity|].
      destruct Hin2 as [->|Hin2]; [reflexivity|].
      apply Hanti; [left; reflexivity | right; exact Hin2
                    | apply Hx, Hin2 | apply Hy, Hin1]. }
    subst y. f_equal. apply IH; [|exact Hxs' | exact Hys'|].
    + intros a b Ha Hb. apply Hanti; right; assumption.
    + apply (Permutation_cons_inv Hperm).
Qed.

End SortedLists.

Lemma StronglySorted_rev {A} (R : A -> A -> Prop) (xs : list A) :
  StronglySorted R xs -> StronglySorted (fun a b => R b a) (rev xs).
Proof.
  induction 1 as [|x xs Hs IH Hall]; simpl; [constructor|].
  apply StronglySorted_snoc; [exact IH|].
  intros y Hy. apply in_rev in Hy. rewrite List.Forall_forall in Hall.
  apply Hall, Hy.
Qed.

Lemma arraySort_ext `{Host} {A} (cmp cmp' : A -> A -> number) (xs : list A) :
  (forall a b, cmp a b = cmp' a b) -> arraySort cmp xs = arraySort cmp' xs.
Proof.
  intros Hext. induction xs as [|x xs IH]; simpl; [reflexivity|].
  rewrite IH. generalize (arraySort cmp' xs). intros ys.
  induction ys as [|y ys IHys]; simpl; [reflexivity|].
  rewrite Hext, IHys. reflexivity.
Qed.

(** X6.  Take rows on which the ascending comparator of a column is
    consistent (what may stand in front carries over from a to b to c) and
    has no ties (two rows compare equal only when they are the same
    record).  Then sorting them descending gives the ascending result read
    backwards; in particular a second click on a column header reverses
    the order on the screen. *)
Theorem sortData_desc_reverse `{Host} (key : string) (stAsc stDesc : State)
  (rows : list StockData) :
  let ascending := {| Saved.key := key; Saved.direction := Saved.asc |} in
  sortConfig stAsc = Some ascending ->
  sortConfig stDesc
    = Some {| Saved.key := key; Saved.direction := Saved.desc |} ->
  (forall a b c, In a rows -> In b rows -> In c rows ->
     inOrder ascending a b -> inOrder ascending b c -> inOrder ascending a c) ->
  (forall a b, In a rows -> In b rows ->
     numberSign (compareRows ascending a b) = 0 -> a = b) ->
  sortData stDesc rows = rev (sortData stAsc rows).
Proof.
  intros ascending HA HD Htrans Hties. unfold sortData. rewrite HA, HD.
  set (R := fun a b => inOrder ascending b a).
  rewrite (arraySort_ext _ (fun a b => compareRows ascending b a))
    by (intros a b; apply compareRows_desc).
  assert (HinD : forall a,
            In a (arraySort (fun a b => compareRows ascending b a) rows) ->
            In a rows).
  { intros a. apply Permutation_in, arraySort_perm. }
  assert (HinA : forall a, In a (arraySort (compareRows ascending) rows) ->
                           In a rows).
  { intros a. apply Permutation_in, arraySort_perm. }
  apply (StronglySorted_unique _ R).
  - intros a b Ha Hb Hab Hba. apply Hties; [apply HinD, Ha | apply HinD, Hb|].
    unfold R, inOrder in Hab, Hba.
    pose proof (compareRows_antisym ascending a b). lia.
  - apply Sorted_StronglySorted_on.
    + intros a b c Ha Hb Hc Hab Hbc. unfold R in *.
      apply (Htrans c b a); auto.
    + apply (arraySort_Sorted _ (fun a b => compareRows ascending b a)).
      intros a b. apply compareRows_antisym.
  - apply (StronglySorted_rev (inOrder ascending)).
    apply Sorted_StronglySorted_on.
    + intros a b c Ha Hb Hc. apply Htrans; auto.
    + apply (arraySort_Sorted _ (compareRows ascending)).
      apply compareRows_antisym.
  - rewrite <- Permutation_rev, !arraySort_perm. reflexivity.
Qed.

(** The three example rows with a P/E value, sorted by P/E. *)
Lemma sortData_desc_reverse_witness :
  sortData (H := ascii8)
    (handleSort "P/E" (handleSort "P/E" Examples.view))
    [Examples.acme; Examples.bolt; Examples.cara]
  = rev (sortData (H := ascii8) (handleSort "P/E" Examples.view)
           [Examples.acme; Examples.bolt; Examples.cara]).
Proof.
  apply (sortData_desc_reverse (H := ascii8) "P/E"
           (handleSort "P/E" Examples.view)
           (handleSort "P/E" (handleSort "P/E" Examples.view))
           [Examples.acme; Examples.bolt; Examples.cara] eq_refl eq_refl).
  - intros a b c Ha Hb Hc. unfold inOrder.
    destruct Ha as [<-|[<-|[<-|[]]]], Hb as [<-|[<-|[<-|[]]]],
             Hc as [<-|[<-|[<-|[]]]];
      intros H1 H2; apply Z.leb_le; apply Z.leb_le in H1, H2;
      vm_compute in H1, H2 |- *; congruence.
  - intros a b Ha Hb.
    destruct Ha as [<-|[<-|[<-|[]]]], Hb as [<-|[<-|[<-|[]]]];
      intros Hs; vm_compute in Hs; first [reflexivity | discriminate].
Defined.

(** ** Running a saved query again *)










(** ** Tags on the save page *)

Lemma existsb_eqb_In (tag : string) (xs : list string) :
  existsb (String.eqb tag) xs = true <-> In tag xs.
Proof.
  rewrite existsb_exists. split.
  - intros (x & Hx & Heq). apply String.eqb_eq in Heq. subst. exact Hx.
  - intros Hin. exists tag. split; [exact Hin | apply String.eqb_refl].
Qed.

Lemma filter_others_In (tag t : string) (xs : list string) :
  In t (List.filter (fun x => negb (String.eqb x tag)) xs) <->
  In t xs /\ t <> tag.
Proof.
  rewrite filter_In, negb_true_iff. split; intros [Hin Hne]; split; auto.
  - intros ->. rewrite String.eqb_refl in Hne. discriminate.
  - destruct (String.eqb_spec t tag); [contradiction | reflexivity].
Qed.

Lemma filter_others_absent (tag : string) (xs : list string) :
  ~ In tag xs -> List.filter (fun x => negb (String.eqb x tag)) xs = xs.
Proof.
  intros Hnot. apply forallb_filter_id, forallb_forall. intros x Hx.
  destruct (String.eqb_spec x tag) as [->|]; [contradiction | reflexivity].
Qed.

Lemma filter_others_perm (tag : string) (xs : list string) :
  NoDup xs -> In tag xs ->
  Permutation (List.filter (fun x => negb (String.eqb x tag)) xs ++ [tag]) xs.
Proof.
  induction 1 as [|x xs Hx Hnd IH]; intros Hin; [destruct Hin|].
  simpl. destruct (String.eqb_spec x tag) as [->|Hne]; simpl.
  - rewrite filter_others_absent by (rewrite <- list_elem_of_In; exact Hx).
    rewrite Permutation_app_comm. reflexivity.
  - destruct Hin as [Heq|Hin]; [contradiction|].
    constructor. apply IH, Hin.
Qed.

(** X9.  A click on a tag flips whether it is selected and leaves every
    other tag as it was; a selection without repeats stays without
    repeats.  Two clicks on a tag that was not selected give the selection
    back as it was; two clicks on a selected tag give back the same tags
    with that tag moved to the end. *)
Theorem handleTagToggle_flips (tag : string) (prev : list string) :
  (forall t, In t (Save.handleTagToggle tag prev) <->
             (t = tag /\ ~ In tag prev) \/ (t <> tag /\ In t prev))
  /\ (NoDup prev -> NoDup (Save.handleTagToggle tag prev))
  /\ (~ In tag prev ->
      Save.handleTagToggle tag (Save.handleTagToggle tag prev) = prev)
  /\ (In tag prev -> NoDup prev ->
      Save.handleTagToggle tag (Save.handleTagToggle tag prev)
      = List.filter (fun x => negb (String.eqb x tag)) prev ++ [tag]
      /\ Permutation (Save.handleTagToggle tag (Save.handleTagToggle tag prev))
           prev).
Proof.
  unfold Save.handleTagToggle.
  destruct (existsb (String.eqb tag) prev) eqn:Hex.
  - apply existsb_eqb_In in Hex.
    assert (Hgone : existsb (String.eqb tag)
                      (List.filter (fun x => negb (String.eqb x tag)) prev)
                    = false).
    { apply not_true_iff_false. rewrite existsb_eqb_In, filter_others_In. tauto. }
    rewrite Hgone. split; [|split; [|split]].
    + intros t. rewrite filter_others_In.
      destruct (string_dec t tag) as [->|]; tauto.
    + intros Hnd. apply NoDup_ListNoDup, List.NoDup_filter, NoDup_ListNoDup, Hnd.
    + tauto.
    + intros _ Hnd. split; [reflexivity | apply filter_others_perm; assumption].
  - assert (Hnot : ~ In tag prev)
      by (rewrite <- existsb_eqb_In, Hex; discriminate).
    assert (Hnow : existsb (String.eqb tag) (prev ++ [tag]) = true)
      by (apply existsb_eqb_In, in_app_iff; right; left; reflexivity).
    rewrite Hnow. split; [|split; [|split]].
    + intros t. rewrite in_app_iff. simpl.
      destruct (string_dec t tag) as [->|]; [tauto|].
      split; [intros [?|[?|[]]]; [tauto | congruence] | tauto].
    + intros Hnd. apply NoDup_snoc. split; [exact Hnd | exact Hnot].
    + intros _. rewrite List.filter_app, filter_others_absent by exact Hnot.
      simpl. rewrite String.eqb_refl. simpl. apply app_nil_r.
    + tauto.
Qed.

(** Clicking a4 twice when a1 and a2 are selected. *)
Lemma handleTagToggle_flips_witness :
  Save.handleTagToggle "a4" (Save.handleTagToggle "a4" ["a1"; "a2"]%string)
  = ["a1"; "a2"]%string.
Proof.
  apply (proj1 (proj2 (proj2 (handleTagToggle_flips "a4" ["a1"; "a2"]%string)))).
  simpl. intros [H|[H|[]]]; discriminate.
Defined.

Lemma indexOfFrom_absent (x : string) (xs : list string) (i : Z) :
  ~ In x xs -> indexOfFrom x xs i = -1.
Proof.
  revert i. induction xs as [|y ys IH]; intros i Hnot; simpl; [reflexivity|].
  destruct (String.eqb_spec y x) as [->|_]; [exfalso; apply Hnot; left; reflexivity|].
  apply IH. intros Hin. apply Hnot. right. exact Hin.
Qed.

(** In an array without repeats, [indexOf] finds each element where it
    is. *)
Lemma indexOfFrom_lookup (x : string) (xs : list string) (i : Z) (n : nat) :
  NoDup xs -> xs !! n = Some x -> indexOfFrom x xs i = i + Z.of_nat n.
Proof.
  revert i n. induction xs as [|y ys IH]; intros i n Hnd Hn; [discriminate|].
  apply NoDup_cons in Hnd. destruct Hnd as [Hy Hnd]. simpl.
  destruct n as [|n]; simpl in Hn.
  - injection Hn as ->. rewrite String.eqb_refl. lia.
  - destruct (String.eqb_spec y x) as [->|_].
    + exfalso. apply Hy. apply list_elem_of_lookup. eauto.
    + rewrite (IH (i + 1) n Hnd Hn). lia.
Qed.

Lemma PREDEFINED_TAGS_NoDup : NoDup Save.PREDEFINED_TAGS.
Proof.
  apply (bool_decide_unpack (NoDup Save.PREDEFINED_TAGS)).
  vm_compute. reflexivity.
Qed.

Lemma getTagColor_nonneg (index : Z) :
  0 <= index -> is_Some (Save.getTagColor index).
Proof.
  intros Hi. unfold Save.getTagColor.
  change (Z.of_nat (length Save.TAG_COLORS)) with 5.
  pose proof (Z.rem_bound_pos index 5 Hi ltac:(lia)) as Hb.
  destruct (Z.ltb_spec (Z.rem index 5) 0); [lia|].
  apply lookup_lt_is_Some. change (length Save.TAG_COLORS) with 5%nat. lia.
Qed.

(** X10.  The colour of a tag.  A selected tag gets a colour exactly when
    it belongs to the predefined tags; any other tag is looked up at index
    -1 and gets none.  Each button of the tag picker, in the short list
    and in the full one, has the colour that the same tag gets once it is
    selected, and the colours repeat with period 5 along the list. *)
Theorem tagColor_by_vocabulary :
  (forall tag, is_Some (Save.chipColor tag) <-> In tag Save.PREDEFINED_TAGS)
  /\ (forall showAllTags index tag,
        Save.displayedTags showAllTags !! index = Some tag ->
        Save.pickerColor index = Save.chipColor tag
        /\ is_Some (Save.chipColor tag))
  /\ (forall index, 0 <= index ->
        Save.getTagColor (index + 5) = Save.getTagColor index).
Proof.
  split; [|split].
  - intros tag. unfold Save.chipColor, indexOf. split.
    + intros Hsome.
      destruct (in_dec string_dec tag Save.PREDEFINED_TAGS) as [Hin|Hnot];
        [exact Hin|].
      rewrite (indexOfFrom_absent _ _ _ Hnot) in Hsome.
      destruct Hsome as [c Hc]. discriminate.
    + intros Hin. apply list_elem_of_In, list_elem_of_lookup in Hin.
      destruct Hin as [n Hn].
      rewrite (indexOfFrom_lookup _ _ 0 n PREDEFINED_TAGS_NoDup Hn).
      apply getTagColor_nonneg. lia.
  - intros showAllTags index tag Hshown.
    assert (Hn : Save.PREDEFINED_TAGS !! index = Some tag).
    { destruct showAllTags; [exact Hshown|].
      change (Save.displayedTags false) with (take 4 Save.PREDEFINED_TAGS)
        in Hshown.
      apply lookup_take_Some in Hshown. tauto. }
    unfold Save.pickerColor, Save.chipColor, indexOf.
    rewrite (indexOfFrom_lookup _ _ 0 index PREDEFINED_TAGS_NoDup Hn).
    split; [reflexivity | apply getTagColor_nonneg; lia].
  - intros index Hi. unfold Save.getTagColor.
    change (Z.of_nat (length Save.TAG_COLORS)) with 5.
    replace (Z.rem (index + 5) 5) with (Z.rem index 5); [reflexivity|].
    rewrite !Z.rem_mod_nonneg by lia.
    replace (index + 5) with (index + 1 * 5) by lia.
    rewrite Z.mod_add by lia. reflexivity.
Qed.

(** The second picker button and the chip of a2 have the same colour. *)
Lemma tagColor_by_vocabulary_witness :
  Save.pickerColor 1 = Save.chipColor "a2"
  /\ is_Some (Save.chipColor "a2").
Proof.
  apply (proj1 (proj2 tagColor_by_vocabulary) false 1%nat "a2"%string).
  reflexivity.
Defined.

(** ** Shortening a description *)

Lemma splitOn_nonempty (sep : ascii) (s : string) : Str.splitOn sep s <> [].
Proof.
  destruct s as [|c s]; simpl; [discriminate|].
  destruct (Ascii.eqb c sep); [discriminate|].
  destruct (Str.splitOn sep s); discriminate.
Qed.

Lemma join_cons (sep w : string) (ws : list string) :
  ws <> [] -> Str.join sep (w :: ws) = (w ++ sep ++ Str.join sep ws)%string.
Proof. destruct ws; [contradiction | reflexivity]. Qed.

Lemma join_consHead (sep : string) (c : ascii) (ws : list string) :
  ws <> [] -> Str.join sep (Str.consHead c ws) = String c (Str.join sep ws).
Proof.
  destruct ws as [|w [|w' ws]]; [contradiction | reflexivity..].
Qed.

(** Splitting at a character and joining with it gives the text back. *)
Lemma join_splitOn (sep : ascii) (s : string) :
  Str.join (Str.single sep) (Str.splitOn sep s) = s.
Proof.
  induction s as [|c s IH]; [reflexivity|]. simpl.
  destruct (Ascii.eqb_spec c sep) as [->|Hne].
  - rewrite join_cons by apply splitOn_nonempty. rewrite IH. reflexivity.
  - rewrite join_consHead by apply splitOn_nonempty. rewrite IH. reflexivity.
Qed.

Lemma string_app_assoc (a b c : string) :
  ((a ++ b) ++ c)%string = (a ++ b ++ c)%string.
Proof.
  induction a as [|x a IH]; [reflexivity|].
  rewrite !StrFacts.app_cons, IH. reflexivity.
Qed.

Lemma join_app (sep : string) (xs ys : list string) :
  xs <> [] -> ys <> [] ->
  Str.join sep (xs ++ ys)
  = (Str.join sep xs ++ sep ++ Str.join sep ys)%string.
Proof.
  intros Hx Hy. induction xs as [|x xs IH]; [contradiction|].
  destruct xs as [|x' xs].
  - simpl app. rewrite join_cons by exact Hy. reflexivity.
  - change ((x :: x' :: xs) ++ ys) with (x :: ((x' :: xs) ++ ys)).
    rewrite join_cons by discriminate.
    rewrite IH by discriminate.
    rewrite (join_cons sep x (x' :: xs)) by discriminate.
    rewrite !string_app_assoc. reflexivity.
Qed.

Lemma slice_from_start {A} (xs : list A) (n : Z) :
  0 <= n -> slice xs 0 n = take (Z.to_nat n) xs.
Proof.
  intros Hn. unfold slice. simpl.
  destruct (Z.ltb_spec n 0); [lia|].
  replace (Z.min 0 (Z.of_nat (length xs))) with 0 by lia.
  change (Z.to_nat 0) with 0%nat. rewrite drop_0, Z.sub_0_r.
  destruct (Z.le_gt_cases n (Z.of_nat (length xs))).
  - rewrite Z.min_l by lia. reflexivity.
  - rewrite Z.min_r by lia. rewrite Nat2Z.id.
    rewrite !take_ge by lia. reflexivity.
Qed.

Lemma consHead_occurs (sep c : ascii) (ws : list string) :
  Ascii.eqb c sep = false ->
  Forall (fun w => Str.occurs sep w = false) ws ->
  Forall (fun w => Str.occurs sep w = false) (Str.consHead c ws).
Proof.
  intros Hc Hws. destruct Hws as [|w ws Hw Hws]; simpl.
  - constructor; [|constructor]. simpl.
    rewrite Ascii.eqb_sym, Hc. reflexivity.
  - constructor; [|exact Hws]. simpl. rewrite Ascii.eqb_sym, Hc. exact Hw.
Qed.

(** No piece of a split holds the separator. *)
Lemma splitOn_pieces (sep : ascii) (s : string) :
  Forall (fun w => Str.occurs sep w = false) (Str.splitOn sep s).
Proof.
  induction s as [|c s IH]; simpl; [repeat constructor|].
  destruct (Ascii.eqb c sep) eqn:Hc.
  - constructor; [reflexivity | exact IH].
  - apply consHead_occurs; assumption.
Qed.

Lemma splitOn_piece_app (sep : ascii) (w rest : string) :
  Str.occurs sep w = false ->
  Str.splitOn sep (w ++ String sep rest) = w :: Str.splitOn sep rest.
Proof.
  induction w as [|c w IH]; intros Hw.
  - rewrite StrFacts.app_nil_l. simpl. rewrite Ascii.eqb_refl. reflexivity.
  - rewrite StrFacts.app_cons. simpl in Hw |- *.
    apply orb_false_iff in Hw. destruct Hw as [Hc Hw].
    rewrite Ascii.eqb_sym, Hc, (IH Hw). reflexivity.
Qed.

Lemma splitOn_piece (sep : ascii) (w : string) :
  Str.occurs sep w = false -> Str.splitOn sep w = [w].
Proof.
  induction w as [|c w IH]; intros Hw; [reflexivity|].
  simpl in Hw |- *. apply orb_false_iff in Hw. destruct Hw as [Hc Hw].
  rewrite Ascii.eqb_sym, Hc, (IH Hw). reflexivity.
Qed.

(** Joining pieces that are free of the separator and splitting again
    gives the pieces back. *)
Lemma splitOn_join (sep : ascii) (ws : list string) :
  ws <> [] -> Forall (fun w => Str.occurs sep w = false) ws ->
  Str.splitOn sep (Str.join (Str.single sep) ws) = ws.
Proof.
  intros Hne Hall. induction Hall as [|w ws Hw Hall IH]; [contradiction|].
  destruct ws as [|w' ws].
  - apply splitOn_piece, Hw.
  - rewrite join_cons by discriminate.
    change (Str.single sep ++ Str.join (Str.single sep) (w' :: ws))%string
      with (String sep (Str.join (Str.single sep) (w' :: ws))).
    rewrite splitOn_piece_app by exact Hw.
    rewrite IH by discriminate. reflexivity.
Qed.

(** X11.  A description of at most [wordLimit] words, counted as the
    pieces between single spaces, is shown as it is.  A longer one is cut
    at a space: what is shown is the text up to the space that ends word
    number [wordLimit], without that space, followed by three dots. *)
Theorem truncateText_cut (text : string) (wordLimit : Z) :
  let words := Str.splitOn " " text in
  (Z.of_nat (length words) <= wordLimit ->
     MyQuery.truncateText text wordLimit = text)
  /\ (1 <= wordLimit < Z.of_nat (length words) ->
      exists kept rest,
        text = (kept ++ " " ++ rest)%string
        /\ Str.splitOn " " kept = take (Z.to_nat wordLimit) words
        /\ MyQuery.truncateText text wordLimit = (kept ++ "...")%string).
Proof.
  intros words. unfold MyQuery.truncateText. fold words. split.
  - intros Hle. destruct (Z.leb_spec (Z.of_nat (length words)) wordLimit);
      [reflexivity | lia].
  - intros [H1 Hlt].
    destruct (Z.leb_spec (Z.of_nat (length words)) wordLimit); [lia|].
    rewrite slice_from_start by lia.
    set (n := Z.to_nat wordLimit).
    assert (Htake : take n words <> []).
    { intros Hnil. apply (f_equal length) in Hnil.
      rewrite length_take in Hnil. simpl in Hnil. lia. }
    assert (Hdrop : drop n words <> []).
    { intros Hnil. apply (f_equal length) in Hnil.
      rewrite length_drop in Hnil. simpl in Hnil. lia. }
    exists (Str.join " " (take n words)), (Str.join " " (drop n words)).
    split; [|split; [|reflexivity]].
    + rewrite <- (join_app " " _ _ Htake Hdrop), take_drop.
      symmetry. apply (join_splitOn " " text).
    + apply (splitOn_join " "); [exact Htake|].
      apply Forall_take, splitOn_pieces.
Qed.

(** A description of four words shown with a limit of two. *)
Lemma truncateText_cut_witness :
  exists kept rest,
    "growth above twenty percent"%string = (kept ++ " " ++ rest)%string
    /\ Str.splitOn " " kept
       = take 2 (Str.splitOn " " "growth above twenty percent")
    /\ MyQuery.truncateText "growth above twenty percent" 2
       = (kept ++ "...")%string.
Proof.
  apply (proj2 (truncateText_cut "growth above twenty percent" 2)).
  split; [lia | reflexivity].
Defined.

Example truncateText_example :
  MyQuery.truncateText "growth above twenty percent" 2 = "growth above..."%string
  /\ MyQuery.truncateText "growth above twenty percent" 30
     = "growth above twenty percent"%string.
Proof. split; reflexivity. Qed.

(** ** Deleting saved queries *)

Lemma idDiffers_spec (id : string) (q : Saved.SavedQuery) :
  Storage.idDiffers id q = true <-> Saved.id q <> Some id.
Proof.
  unfold Storage.idDiffers. destruct (Saved.id q) as [i|].
  - rewrite negb_true_iff. destruct (String.eqb_spec i id) as [->|Hne].
    + split; [discriminate | intros Hc; contradiction].
    + split; [intros _ [= ?]; contradiction | reflexivity].
  - split; [discriminate | reflexivity].
Qed.

(** X12.  A confirmed delete writes to the key exactly the list it leaves
    in the component.  That list is the component's list without every
    entry whose id is the given one, in the same order: entries with
    another id and entries without an id stay, an id that no entry has
    changes nothing in the list, and a second delete of the same id
    changes nothing more. *)
Theorem deleteQuery_removes (id : string)
  (savedQueries : list Saved.SavedQuery) (ls : Storage.Blob) :
  let r := Storage.deleteQuery true id savedQueries ls in
  r.2 = Storage.Stored r.1
  /\ Storage.listQueries r.2 = r.1
  /\ (forall q, In q r.1 <-> In q savedQueries /\ Saved.id q <> Some id)
  /\ r.1 `sublist_of` savedQueries
  /\ ((forall q, In q savedQueries -> Saved.id q <> Some id) ->
      r.1 = savedQueries)
  /\ Storage.deleteQuery true id r.1 r.2 = r.
Proof.
  simpl. split; [reflexivity|]. split; [reflexivity|]. split; [|split; [|split]].
  - intros q. rewrite filter_In, idDiffers_spec. reflexivity.
  - apply filter_sublist.
  - intros Hnone. apply forallb_filter_id, forallb_forall.
    intros q Hq. apply idDiffers_spec, Hnone, Hq.
  - unfold Storage.deleteQuery.
    rewrite (forallb_filter_id (Storage.idDiffers id)
               (List.filter (Storage.idDiffers id) savedQueries));
      [reflexivity|].
    apply forallb_forall. intros q Hq. apply filter_In in Hq. tauto.
Qed.

(** Deleting an id that the one stored query does not have. *)
Lemma deleteQuery_removes_witness :
  (Storage.deleteQuery true "none" [Examples.older]
     (Storage.Stored [Examples.older])).1
  = [Examples.older].
Proof.
  apply (proj1 (proj2 (proj2 (proj2 (proj2
           (deleteQuery_removes "none" [Examples.older]
              (Storage.Stored [Examples.older]))))))).
  intros q [<-|[]]. discriminate.
Defined.

(** X13.  Saving and then deleting.  After a save that went through, the
    new entry has an id.  When a page that has loaded the new collection
    deletes that id, the key holds the collection from before the save
    without the entries that already had this id; so it holds the
    collection from before the save whenever the id was new. *)
Theorem create_then_delete `{Host} (now : Z) (form : Save.State)
  (qd : Saved.SavedQuery) (ls : Storage.Blob) :
  Save.queryData form = Some qd -> Save.nameMissing form = false ->
  ls <> Storage.Unreadable ->
  let after := (Save.saveQuery now form ls).1.2 in
  exists id,
    Saved.id (Save.newQuery now form qd) = Some id
    /\ (Storage.deleteQuery true id (Storage.listQueries after) after).2
       = Storage.Stored
           (List.filter (Storage.idDiffers id) (Storage.listQueries ls))
    /\ ((forall q, In q (Storage.listQueries ls) -> Saved.id q <> Some id) ->
        (Storage.deleteQuery true id (Storage.listQueries after) after).2
        = Storage.Stored (Storage.listQueries ls)).
Proof.
  intros Hqd Hname Hread after.
  assert (Hafter : after = Storage.Stored
                     (Storage.listQueries ls ++ [Save.newQuery now form qd])).
  { subst after. unfold Save.saveQuery. rewrite Hqd, Hname.
    destruct ls; [reflexivity | contradiction | reflexivity]. }
  assert (Hid : exists id, Saved.id (Save.newQuery now form qd) = Some id).
  { unfold Save.newQuery. simpl. destruct (Saved.id qd); eauto. }
  destruct Hid as [id Hid]. exists id. split; [exact Hid|].
  assert (Hdel : (Storage.deleteQuery true id (Storage.listQueries after)
                    after).2
                 = Storage.Stored
                     (List.filter (Storage.idDiffers id)
                        (Storage.listQueries ls))).
  { rewrite Hafter. simpl. rewrite List.filter_app. simpl.
    assert (Hnew : Storage.idDiffers id (Save.newQuery now form qd) = false).
    { apply not_true_iff_false. rewrite idDiffers_spec. tauto. }
    rewrite Hnew, app_nil_r. reflexivity. }
  split; [exact Hdel|].
  intros Hnew. rewrite Hdel. f_equal.
  apply forallb_filter_id, forallb_forall.
  intros q Hq. apply idDiffers_spec, Hnew, Hq.
Qed.

(** Saving the example form over [older] and deleting the new id. *)
Lemma create_then_delete_witness :
  exists id,
    Saved.id (Save.newQuery (H := ascii8) 1700000000500 Examples.form
                Examples.captured) = Some id
    /\ (Storage.deleteQuery true id
          (Storage.listQueries
             (Save.saveQuery (H := ascii8) 1700000000500 Examples.form
                (Storage.Stored [Examples.older])).1.2)
          (Save.saveQuery (H := ascii8) 1700000000500 Examples.form
             (Storage.Stored [Examples.older])).1.2).2
       = Storage.Stored
           (List.filter (Storage.idDiffers id)
              (Storage.listQueries (Storage.Stored [Examples.older]))).
Proof.
  destruct (create_then_delete (H := ascii8) 1700000000500 Examples.form
              Examples.captured (Storage.Stored [Examples.older])
              eq_refl eq_refl ltac:(discriminate))
    as (id & Hid & Hdel & _).
  exists id. split; [exact Hid | exact Hdel].
Defined.


(** ** Reading an exported file back *)

Lemma string_app_nil_r (s : string) : (s ++ EmptyString)%string = s.
Proof.
  induction s as [|c s IH]; [reflexivity|].
  rewrite StrFacts.app_cons, IH. reflexivity.
Qed.

Lemma consHead_prepend (c : ascii) (x : string) (ws : list string) :
  Str.consHead c (prepend x ws) = prepend (String c x) ws.
Proof. destruct ws; reflexivity. Qed.

Lemma splitCells_nonempty (inQuotes : bool) (line : string) :
  splitCells inQuotes line <> [].
Proof.
  revert inQuotes. induction line as [|c line IH]; intros inQuotes; simpl;
    [discriminate|].
  destruct (Ascii.eqb c Str.dquote).
  - specialize (IH (negb inQuotes)).
    destruct (splitCells (negb inQuotes) line); [contradiction | discriminate].
  - destruct (Ascii.eqb c Str.comma && negb inQuotes); [discriminate|].
    specialize (IH inQuotes).
    destruct (splitCells inQuotes line); [contradiction | discriminate].
Qed.

(** Text without comma and quote runs through the cutter untouched. *)
Lemma splitCells_plain (x rest : string) (inQuotes : bool) :
  Str.occurs Str.comma x = false -> Str.occurs Str.dquote x = false ->
  splitCells inQuotes (x ++ rest) = prepend x (splitCells inQuotes rest).
Proof.
  induction x as [|c x IH]; intros Hc Hq.
  - rewrite StrFacts.app_nil_l.
    pose proof (splitCells_nonempty inQuotes rest).
    destruct (splitCells inQuotes rest); [contradiction | reflexivity].
  - rewrite StrFacts.app_cons. cbn [Str.occurs] in Hc, Hq. cbn [splitCells].
    apply orb_false_iff in Hc. destruct Hc as [Hc1 Hc2].
    apply orb_false_iff in Hq. destruct Hq as [Hq1 Hq2].
    rewrite (Ascii.eqb_sym c Str.dquote), Hq1.
    rewrite (Ascii.eqb_sym c Str.comma), Hc1. cbn [andb].
    rewrite (IH Hc2 Hq2). apply consHead_prepend.
Qed.

(** Inside quotes the cutter runs to the closing quote, whatever the
    text between them was before its quotes were doubled. *)
Lemma splitCells_quoted (text rest : string) :
  splitCells true
    (Str.replaceAll Str.dquote (String Str.dquote (Str.single Str.dquote)) text
     ++ String Str.dquote rest)
  = prepend
      (Str.replaceAll Str.dquote (String Str.dquote (Str.single Str.dquote)) text
       ++ Str.single Str.dquote)
      (splitCells false rest).
Proof.
  induction text as [|c text IH].
  - cbn [Str.replaceAll]. rewrite !StrFacts.app_nil_l. cbn [splitCells negb].
    rewrite Ascii.eqb_refl.
    destruct (splitCells false rest); reflexivity.
  - cbn [Str.replaceAll]. destruct (Ascii.eqb_spec c Str.dquote) as [->|Hne].
    + unfold Str.single at 1 3. rewrite !StrFacts.app_cons, !StrFacts.app_nil_l.
      cbn [splitCells negb]. rewrite !Ascii.eqb_refl. cbn [negb].
      rewrite IH. rewrite !consHead_prepend. reflexivity.
    + rewrite !StrFacts.app_cons. cbn [splitCells negb].
      destruct (Ascii.eqb_spec c Str.dquote); [contradiction|].
      rewrite andb_false_r. rewrite IH. apply consHead_prepend.
Qed.

Lemma csvCell_shape `{Host} (value : option JsValue) :
  let text := toStringOrEmpty value in
  csvCell value
  = if Str.occurs Str.comma text || Str.occurs Str.dquote text
    then String Str.dquote
           (Str.replaceAll Str.dquote
              (String Str.dquote (Str.single Str.dquote)) text
            ++ Str.single Str.dquote)
    else text.
Proof.
  destruct value as [[n|s|[|]|]|]; try reflexivity.
  - unfold csvCell, joinElement, toStringOrEmpty. simpl.
    destruct (numberToString_plain n) as [-> ->]. reflexivity.
  - unfold csvCell, toStringOrEmpty. simpl.
    rewrite !StrFacts.includes_single. reflexivity.
Qed.

Lemma csvCell_unescape `{Host} (value : option JsValue) :
  csvUnescape (csvCell value) = toStringOrEmpty value.
Proof.
  rewrite csvCell_shape.
  destruct (Str.occurs Str.comma (toStringOrEmpty value)
            || Str.occurs Str.dquote (toStringOrEmpty value)) eqn:Hs.
  - simpl. apply StrFacts.unquoteBody_replaceAll.
  - apply StrFacts.csvUnescape_plain. apply orb_false_iff in Hs. tauto.
Qed.

(** A written cell is cut off as one piece. *)
Lemma splitCells_csvCell `{Host} (value : option JsValue) (rest : string) :
  splitCells false (csvCell value ++ rest)
  = prepend (csvCell value) (splitCells false rest).
Proof.
  rewrite csvCell_shape.
  destruct (Str.occurs Str.comma (toStringOrEmpty value)
            || Str.occurs Str.dquote (toStringOrEmpty value)) eqn:Hs.
  - rewrite StrFacts.app_cons, string_app_assoc.
    change (Str.single Str.dquote ++ rest)%string with (String Str.dquote rest).
    cbn [splitCells negb]. rewrite Ascii.eqb_refl. cbn [negb].
    rewrite splitCells_quoted. apply consHead_prepend.
  - apply orb_false_iff in Hs. apply splitCells_plain; tauto.
Qed.

(** Cells that are each cut off as one piece, joined with commas, are cut
    back into themselves. *)
Lemma splitCells_join (cells : list string) :
  cells <> [] ->
  Forall (fun cell => forall rest,
            splitCells false (cell ++ rest)
            = prepend cell (splitCells false rest)) cells ->
  splitCells false (Str.join (Str.single Str.comma) cells) = cells.
Proof.
  intros Hne Hall. induction Hall as [|cell cells Hcell Hall IH];
    [contradiction|].
  destruct cells as [|cell' cells].
  - change (Str.join (Str.single Str.comma) [cell]) with cell.
    rewrite <- (string_app_nil_r cell) at 1. rewrite Hcell.
    cbn [splitCells prepend]. rewrite string_app_nil_r. reflexivity.
  - rewrite join_cons by discriminate. rewrite Hcell.
    change (Str.single Str.comma
            ++ Str.join (Str.single Str.comma) (cell' :: cells))%string
      with (String Str.comma (Str.join (Str.single Str.comma) (cell' :: cells))).
    cbn [splitCells]. rewrite Ascii.eqb_refl.
    replace (Ascii.eqb Str.comma Str.dquote) with false by reflexivity.
    cbn [andb negb]. rewrite IH by discriminate. cbn [prepend].
    rewrite string_app_nil_r. reflexivity.
Qed.

Lemma splitCells_cells `{Host} (columns : list string) (row : StockData) :
  columns <> [] ->
  splitCells false (csvRow columns row)
  = map (fun col => csvCell (getField col row)) columns.
Proof.
  intros Hne. unfold csvRow. apply splitCells_join.
  - destruct columns; [contradiction | discriminate].
  - apply List.Forall_forall. intros cell Hcell. apply in_map_iff in Hcell.
    destruct Hcell as (col & <- & _). apply splitCells_csvCell.
Qed.

Lemma parseRow_csvRow `{Host} (columns : list string) (row : StockData) :
  columns <> [] ->
  parseRow (csvRow columns row)
  = map (fun col => toStringOrEmpty (getField col row)) columns.
Proof.
  intros Hne. unfold parseRow. rewrite splitCells_cells by exact Hne.
  rewrite map_map. apply map_ext. intros col. apply csvCell_unescape.
Qed.

Lemma parseRow_header (columns : list string) :
  columns <> [] -> Forall plainText columns ->
  parseRow (Str.join (Str.single Str.comma) columns) = columns.
Proof.
  intros Hne Hplain. unfold parseRow. rewrite splitCells_join.
  - rewrite <- (map_id columns) at 2. apply map_ext_in. intros col Hcol.
    rewrite List.Forall_forall in Hplain.
    apply StrFacts.csvUnescape_plain, (Hplain col Hcol).
  - exact Hne.
  - apply (Forall_impl _ _ _ Hplain). intros col [Hc Hq] rest.
    apply splitCells_plain; assumption.
Qed.

(** X15.  A data line of the export reads back as the row's texts.  For a
    view with at least one column, cutting the written line at the commas
    that stand outside quotes and unescaping every cell gives, column by
    column, the text of the row's value, with the empty text where the row
    has no value.  The header line is written without any escaping: it
    reads back as the column names when no name holds a comma or a double
    quote. *)
Theorem csvRow_reads_back `{Host} (columns : list string) (row : StockData) :
  columns <> [] ->
  parseRow (csvRow columns row)
    = map (fun col => toStringOrEmpty (getField col row)) columns
  /\ (Forall plainText columns ->
      parseRow (Str.join (Str.single Str.comma) columns) = columns).
Proof.
  intros Hne. split; [apply parseRow_csvRow | apply parseRow_header]; exact Hne.
Qed.

(** The line of the example row whose name holds a comma. *)
Lemma csvRow_reads_back_witness :
  parseRow (csvRow (H := ascii8) ["S.No"; "Name"; "P/E"]%string Examples.cara)
  = ["3"; "Cara, Inc"; "112"]%string.
Proof.
  rewrite (proj1 (csvRow_reads_back (H := ascii8)
                    ["S.No"; "Name"; "P/E"]%string Examples.cara
                    ltac:(discriminate))).
  reflexivity.
Defined.

Lemma occurs_join (c : ascii) (sep : string) (ws : list string) :
  Str.occurs c sep = false ->
  Forall (fun w => Str.occurs c w = false) ws ->
  Str.occurs c (Str.join sep ws) = false.
Proof.
  intros Hsep Hall. induction Hall as [|w ws Hw Hall IH]; [reflexivity|].
  destruct ws as [|w' ws]; [exact Hw|].
  rewrite join_cons by discriminate.
  rewrite !StrFacts.occurs_append, Hw, Hsep, IH. reflexivity.
Qed.

Lemma occurs_replaceAll (c d : ascii) (r s : string) :
  Str.occurs c r = false -> Str.occurs c s = false ->
  Str.occurs c (Str.replaceAll d r s) = false.
Proof.
  intros Hr. induction s as [|x s IH]; intros Hs; [reflexivity|].
  cbn [Str.occurs] in Hs. apply orb_false_iff in Hs. destruct Hs as [Hx Hs].
  cbn [Str.replaceAll]. destruct (Ascii.eqb x d).
  - rewrite StrFacts.occurs_append, Hr, (IH Hs). reflexivity.
  - cbn [Str.occurs]. rewrite Hx, (IH Hs). reflexivity.
Qed.

(** Escaping a cell brings no line break into it. *)
Lemma occurs_newline_csvCell `{Host} (value : option JsValue) :
  Str.occurs Str.newline (toStringOrEmpty value) = false ->
  Str.occurs Str.newline (csvCell value) = false.
Proof.
  intros Htext. rewrite csvCell_shape.
  destruct (Str.occurs Str.comma (toStringOrEmpty value)
            || Str.occurs Str.dquote (toStringOrEmpty value)); [|exact Htext].
  cbn [Str.occurs]. rewrite StrFacts.occurs_append.
  rewrite occurs_replaceAll by (reflexivity || exact Htext). reflexivity.
Qed.

(** X16.  Reading an export back.  Suppose the view has rows, its first
    row has at least one field, no column name holds a comma, a double
    quote or a line break, and no exported value prints with a line break.
    Then the export offers one file, and cutting its content into lines
    and every line into cells gives the column names of the first row
    followed, for every row of the view in order, by the texts of the
    row's values in these columns.  Fields that the first row does not
    have are not part of the file. *)
Theorem exportToCSV_reads_back `{Host} (today : string) (st : State)
  (first : StockData) (rest : list StockData) :
  filteredAndSortedData st = first :: rest ->
  let columns := objectKeys first in
  first <> [] ->
  Forall (fun col => plainText col /\ Str.occurs Str.newline col = false)
         columns ->
  (forall row col, In row (first :: rest) -> In col columns ->
     Str.occurs Str.newline (toStringOrEmpty (getField col row)) = false) ->
  exists content,
    exportToCSV today st
      = (st, [Download ("stock-query-results-" ++ today ++ ".csv") content])
    /\ parseCsv content
       = columns
         :: map (fun row =>
                   map (fun col => toStringOrEmpty (getField col row)) columns)
                (first :: rest).
Proof.
  intros Hview columns Hfirst Hnames Hcells.
  assert (Hcols : columns <> []).
  { subst columns. destruct first; [contradiction | discriminate]. }
  exists (csvContent columns (first :: rest)). split.
  - unfold exportToCSV. unfold filteredAndSortedData in Hview.
    rewrite Hview. reflexivity.
  - unfold parseCsv, csvContent.
    rewrite (splitOn_join Str.newline); [|discriminate|].
    + rewrite map_cons. f_equal.
      * apply parseRow_header; [exact Hcols|].
        apply (Forall_impl _ _ _ Hnames). tauto.
      * rewrite map_map. apply map_ext. intros row.
        apply parseRow_csvRow, Hcols.
    + constructor.
      * apply occurs_join; [reflexivity|].
        apply (Forall_impl _ _ _ Hnames). tauto.
      * apply List.Forall_forall. intros line Hline.
        apply in_map_iff in Hline. destruct Hline as (row & <- & Hrow).
        unfold csvRow. apply occurs_join; [reflexivity|].
        apply List.Forall_forall. intros cell Hcell.
        apply in_map_iff in Hcell. destruct Hcell as (col & <- & Hcol).
        apply occurs_newline_csvCell, Hcells; assumption.
Qed.

(** The export of the example view read back. *)
Lemma exportToCSV_reads_back_witness :
  exists content,
    exportToCSV (H := ascii8) "2024-01-01" Examples.view
      = (Examples.view,
         [Download "stock-query-results-2024-01-01.csv" content])
    /\ parseCsv content
       = [["S.No"; "Name"; "P/E"]; ["1"; "Acme"; "12"];
          ["3"; "Cara, Inc"; "112"]]%string.
Proof.
  apply (exportToCSV_reads_back (H := ascii8) "2024-01-01" Examples.view
           Examples.acme [Examples.cara] eq_refl).
  - discriminate.
  - repeat constructor.
  - intros row col Hrow Hcol.
    destruct Hrow as [<-|[<-|[]]]; destruct Hcol as [<-|[<-|[<-|[]]]];
      reflexivity.
Defined.

(** ** The subtitle and the automatic name *)

Lemma occurs_join_head (c : ascii) (sep w : string) (ws : list string) :
  Str.occurs c w = true -> Str.occurs c (Str.join sep (w :: ws)) = true.
Proof.
  intros Hw. destruct ws as [|w' ws]; [exact Hw|].
  rewrite join_cons by discriminate.
  rewrite StrFacts.occurs_append, Hw. reflexivity.
Qed.

Lemma filter_none {A} (p : A -> bool) (xs : list A) :
  (forall x, In x xs -> p x = false) -> List.filter p xs = [].
Proof.
  induction xs as [|x xs IH]; intros Hall; [reflexivity|].
  simpl. rewrite (Hall x (or_introl eq_refl)).
  apply IH. intros y Hy. apply Hall. right. exact Hy.
Qed.

(** X17.  The subtitle of the result page is "All stocks" exactly when no
    filter entry has a value that is neither empty nor blank; otherwise it
    lists the entries that have one, each as [key = value] and joined by
    an ampersand. *)
Theorem generateSubtitle_all_stocks `{Host} (entries : list (string * string)) :
  (generateSubtitle entries = "All stocks"%string <->
   forall kv, In kv entries -> describes kv = false)
  /\ (forall kv, In kv entries -> describes kv = true ->
      generateSubtitle entries
      = Str.join " & "
          (map (fun kv => kv.1 ++ " = " ++ kv.2)%string
               (List.filter describes entries))).
Proof.
  assert (Hsome : forall kv, In kv entries -> describes kv = true ->
            generateSubtitle entries
            = Str.join " & "
                (map (fun kv => kv.1 ++ " = " ++ kv.2)%string
                     (List.filter describes entries))
            /\ generateSubtitle entries <> "All stocks"%string).
  { intros kv Hin Hd. unfold generateSubtitle.
    destruct entries as [|e entries]; [destruct Hin|].
    assert (Hf : In kv (List.filter describes (e :: entries)))
      by (apply filter_In; split; assumption).
    destruct (List.filter describes (e :: entries)) as [|d ds]; [destruct Hf|].
    cbn [map]. split; [reflexivity|].
    intros Heq. apply (f_equal (Str.occurs "="%char)) in Heq.
    rewrite occurs_join_head in Heq; [discriminate|].
    rewrite !StrFacts.occurs_append. simpl. apply orb_true_r. }
  split; [|intros kv Hin Hd; apply (Hsome kv Hin Hd)].
  split.
  - intros Heq kv Hin. destruct (describes kv) eqn:Hd; [|reflexivity].
    exfalso. apply (proj2 (Hsome kv Hin Hd)). exact Heq.
  - intros Hall. unfold generateSubtitle.
    destruct entries as [|e entries]; [reflexivity|].
    rewrite (filter_none describes (e :: entries) Hall). reflexivity.
Qed.

(** A filter on P/E and a blank filter on Name. *)
Lemma generateSubtitle_all_stocks_witness :
  generateSubtitle (H := ascii8) [("P/E", "12"); ("Name", "  ")]%string
  = "P/E = 12"%string.
Proof.
  rewrite (proj2 (generateSubtitle_all_stocks (H := ascii8)
                    [("P/E", "12"); ("Name", "  ")]%string)
             ("P/E", "12")%string (or_introl eq_refl) eq_refl).
  reflexivity.
Defined.

Lemma runQuery_keys (keys : list string) (query : Saved.SavedQuery) :
  map fst (MyQuery.runQuery keys query)
  = List.filter
      (fun key =>
         match Saved.filters query !! key with
         | Some value => negb (String.eqb value EmptyString)
         | None => false
         end)
      keys.
Proof.
  unfold MyQuery.runQuery. induction keys as [|key keys IH]; [reflexivity|].
  cbn [flat_map List.filter]. rewrite map_app, IH.
  destruct (Saved.filters query !! key) as [value|]; [|reflexivity].
  destruct (String.eqb value EmptyString); reflexivity.
Qed.

(** X18.  The name that the save page proposes lists, after "Query with",
    exactly the fields that running the saved query again sends as
    parameters, in the same order; it is "Stock Query" with the date
    exactly when a replay sends no parameter at all. *)
Theorem autoName_names_replay (keys : list string)
  (decoded : Saved.SavedQuery) (today : string) :
  (Save.autoName keys decoded today = ("Stock Query " ++ today)%string <->
   MyQuery.runQuery keys decoded = [])
  /\ (MyQuery.runQuery keys decoded <> [] ->
      Save.autoName keys decoded today
      = ("Query with "
         ++ Str.join ", " (map fst (MyQuery.runQuery keys decoded)))%string).
Proof.
  unfold Save.autoName. rewrite <- runQuery_keys.
  destruct (MyQuery.runQuery keys decoded) as [|[k v] params].
  - split; [split; reflexivity | contradiction].
  - cbn [map]. split; [|reflexivity].
    split; [|discriminate]. intros Heq. exfalso.
    change (String "Q" ("uery with " ++ Str.join ", " (k :: map fst params))
            = String "S" ("tock Query " ++ today))%string in Heq.
    discriminate.
Qed.

(** The name proposed for the example query [second]. *)
Lemma autoName_names_replay_witness :
  Save.autoName ["P/E"%string] Examples.second "1/1/2024"
  = "Query with P/E"%string.
Proof.
  rewrite (proj2 (autoName_names_replay ["P/E"%string]
                    Examples.second "1/1/2024") ltac:(discriminate)).
  reflexivity.
Defined.

(** ** Invariants *)

(** X19.  In every state the result page can reach, the page number is at
    least 1: it starts at 1, only a click on a rendered page control
    changes it, and those controls lead to pages from 1 up. *)
Theorem reachable_currentPage `{Host} (st : State) :
  Reachable st -> 1 <= currentPage st.
Proof.
  induction 1 as [|st params _ IH|st result _ IH|st key _ IH|st page _ IH Hin];
    simpl; try exact IH; [lia|].
  apply (pageTargets_range _ _ _ IH Hin).
Qed.

(** From the twenty-one example rows, a click on page 2 and a sort. *)
Lemma reachable_currentPage_witness :
  1 <= currentPage (handleSort (H := ascii8) "Name"
                      (handlePageChange 2 Examples.wide)).
Proof.
  apply (reachable_currentPage (H := ascii8)).
  apply reach_sort, reach_page.
  - apply (reach_fetched (H := ascii8) initialState Examples.manyRows).
    apply reach_initial.
  - vm_compute. tauto.
Defined.

(** X20.  Every entry that a save adds to the store has an id.  So when
    every entry of a store has one, every entry still has one after any
    session of mounts, saves and deletes, and each delete button has an id
    to pass. *)
Theorem session_ids_present `{Host} (w : World) (actions : list Action) :
  Forall (fun q => is_Some (Saved.id q)) (entries w) ->
  Forall (fun q => is_Some (Saved.id q)) (entries (session w actions)).
Proof.
  revert w. induction actions as [|a actions IH]; intros w Hw; [exact Hw|].
  simpl. apply IH. rewrite List.Forall_forall in *. intros q Hq.
  apply act_entries in Hq.
  destruct Hq as [Hq|(nowIso & view & now & name & description & tags & _ & ->)].
  - apply Hw, Hq.
  - unfold Save.newQuery. simpl. eauto.
Qed.

(** The ids stay in place through the example session. *)
Lemma session_ids_present_witness :
  Forall (fun q => is_Some (Saved.id q))
    (entries (session (H := ascii8) Examples.start
                [Mount; Examples.secondSave; Delete true "none"])).
Proof.
  apply (session_ids_present (H := ascii8)).
  repeat constructor. eexists. reflexivity.
Defined.

End Further.
